(** * Pagination and backoff engine of the scraper: a shallow embedding

    The development follows the three Python modules that carry the decision
    logic of the crawler:

    - [src/utils/anti_bot.py]: the shared throttle object, the blocking and
      the cooperative backoff, and the two response classifiers;
    - [src/utils/pagination.py]: [PaginationHandler] with its four ordered
      strategies and the visited set;
    - [src/scrapers/static_scraper.py]: the crawl loop of [StaticScraper].

    Conventions.  Python [float]s that the code only adds, multiplies by
    constants and compares are rationals ([Q]); [int]s are [Z]; [str] is
    [string], holding the UTF-8 encoding of the text: [isdigit], [int] and
    [\d] read its code points, [lower] and [strip] act on the ASCII range;
    [None] is [None].  Sources of non-determinism (the clock, the random generator, the
    network, the HTML parser, [urllib]) are inputs of the functions. *)

From Stdlib Require Import ZArith QArith Qminmax Lqa Lia List Bool Ascii String.
From stdpp Require Import base gmap strings.

Import ListNotations.

(** ** Python strings *)

Module PyStr.

Local Open Scope string_scope.

(** Truth value of a string: [if s:] holds for every non-empty string. *)
Definition truthy (s : string) : bool :=
  match s with
  | EmptyString => false
  | String _ _ => true
  end.

(** Truth value of an optional string ([None] and [''] are both false). *)
Definition truthy_opt (o : option string) : bool :=
  match o with
  | None => false
  | Some s => truthy s
  end.

Definition is_upper (c : ascii) : bool :=
  let n := nat_of_ascii c in (65 <=? n)%nat && (n <=? 90)%nat.

Definition is_digit (c : ascii) : bool :=
  let n := nat_of_ascii c in (48 <=? n)%nat && (n <=? 57)%nat.

Definition lower_char (c : ascii) : ascii :=
  if is_upper c then ascii_of_nat (nat_of_ascii c + 32) else c.

(** [s.lower()] *)
Fixpoint lower (s : string) : string :=
  match s with
  | EmptyString => EmptyString
  | String c s' => String (lower_char c) (lower s')
  end.

(** [s.startswith(p)] *)
Fixpoint startswith (p s : string) : bool :=
  match p with
  | EmptyString => true
  | String a p' =>
      match s with
      | EmptyString => false
      | String b s' => Ascii.eqb a b && startswith p' s'
      end
  end.

(** [needle in hay], the substring test. *)
Fixpoint contains (needle hay : string) : bool :=
  startswith needle hay ||
  match hay with
  | EmptyString => false
  | String _ hay' => contains needle hay'
  end.

(** ASCII white space, as removed by [strip] and skipped by [int]. *)
Definition is_space (c : ascii) : bool :=
  let n := nat_of_ascii c in
  ((9 <=? n)%nat && (n <=? 13)%nat) || ((28 <=? n)%nat && (n <=? 32)%nat).

Fixpoint lstrip (s : string) : string :=
  match s with
  | EmptyString => EmptyString
  | String c s' => if is_space c then lstrip s' else s
  end.

Fixpoint rstrip (s : string) : string :=
  match s with
  | EmptyString => EmptyString
  | String c s' =>
      match rstrip s' with
      | EmptyString => if is_space c then EmptyString else String c EmptyString
      | r => String c r
      end
  end.

(** [s.strip()] *)
Definition strip (s : string) : string := rstrip (lstrip s).

(** *** Code points

    A [string] holds the UTF-8 encoding of a Python string.  Comparing,
    searching and concatenating act on the encoding as they do on the
    string; [str.isdigit] and [int] look at the code points. *)

Definition byte (c : ascii) : N := N_of_ascii c.

(** A byte that continues a sequence: [10xxxxxx]. *)
Definition continuation (c : ascii) : option N :=
  let n := byte c in
  if (128 <=? n)%N && (n <=? 191)%N then Some (n - 128)%N else None.

(** The code point, when it is not a surrogate and needs the number of
    bytes that encoded it. *)
Definition scalar (lowest cp : N) : option N :=
  if (lowest <=? cp)%N && (cp <=? 1114111)%N
     && negb ((55296 <=? cp)%N && (cp <=? 57343)%N)
  then Some cp else None.

(** The code points of a string; [None] when it is not well-formed UTF-8. *)
Fixpoint code_points (s : string) : option (list N) :=
  match s with
  | EmptyString => Some []
  | String b0 r0 =>
      let n0 := byte b0 in
      if (n0 <? 128)%N then option_map (cons n0) (code_points r0)
      else if (n0 <? 192)%N then None
      else if (n0 <? 224)%N then
        match r0 with
        | String b1 r1 =>
            match continuation b1, code_points r1 with
            | Some c1, Some rest =>
                option_map (fun cp => cp :: rest)
                           (scalar 128 ((n0 - 192) * 64 + c1))
            | _, _ => None
            end
        | _ => None
        end
      else if (n0 <? 240)%N then
        match r0 with
        | String b1 (String b2 r2) =>
            match continuation b1, continuation b2, code_points r2 with
            | Some c1, Some c2, Some rest =>
                option_map (fun cp => cp :: rest)
                           (scalar 2048 ((n0 - 224) * 4096 + c1 * 64 + c2))
            | _, _, _ => None
            end
        | _ => None
        end
      else if (n0 <? 248)%N then
        match r0 with
        | String b1 (String b2 (String b3 r3)) =>
            match continuation b1, continuation b2, continuation b3,
                  code_points r3 with
            | Some c1, Some c2, Some c3, Some rest =>
                option_map (fun cp => cp :: rest)
                           (scalar 65536 ((n0 - 240) * 262144 + c1 * 4096
                                          + c2 * 64 + c3))
            | _, _, _, _ => None
            end
        | _ => None
        end
      else None
  end.

(** The code points on which [str.isdigit] holds (Unicode 14.0, as in
    CPython 3.11), as inclusive ranges. *)
Definition digit_ranges : list (N * N) :=
  [(48, 57); (178, 179); (185, 185); (1632, 1641); (1776, 1785);
   (1984, 1993); (2406, 2415); (2534, 2543); (2662, 2671); (2790, 2799);
   (2918, 2927); (3046, 3055); (3174, 3183); (3302, 3311); (3430, 3439);
   (3558, 3567); (3664, 3673); (3792, 3801); (3872, 3881); (4160, 4169);
   (4240, 4249); (4969, 4977); (6112, 6121); (6160, 6169); (6470, 6479);
   (6608, 6618); (6784, 6793); (6800, 6809); (6992, 7001); (7088, 7097);
   (7232, 7241); (7248, 7257); (8304, 8304); (8308, 8313); (8320, 8329);
   (9312, 9320); (9332, 9340); (9352, 9360); (9450, 9450); (9461, 9469);
   (9471, 9471); (10102, 10110); (10112, 10120); (10122, 10130);
   (42528, 42537); (43216, 43225); (43264, 43273); (43472, 43481);
   (43504, 43513); (43600, 43609); (44016, 44025); (65296, 65305);
   (66720, 66729); (68160, 68163); (68912, 68921); (69216, 69224);
   (69714, 69722); (69734, 69743); (69872, 69881); (69942, 69951);
   (70096, 70105); (70384, 70393); (70736, 70745); (70864, 70873);
   (71248, 71257); (71360, 71369); (71472, 71481); (71904, 71913);
   (72016, 72025); (72784, 72793); (73040, 73049); (73120, 73129);
   (92768, 92777); (92864, 92873); (93008, 93017); (120782, 120831);
   (123200, 123209); (123632, 123641); (125264, 125273); (127232, 127242);
   (130032, 130041)]%N.

(** The decimal digits that [int] reads, as runs of ten code points from
    the digit 0 to the digit 9 of a script. *)
Definition decimal_ranges : list (N * N) :=
  [(48, 57); (1632, 1641); (1776, 1785); (1984, 1993); (2406, 2415);
   (2534, 2543); (2662, 2671); (2790, 2799); (2918, 2927); (3046, 3055);
   (3174, 3183); (3302, 3311); (3430, 3439); (3558, 3567); (3664, 3673);
   (3792, 3801); (3872, 3881); (4160, 4169); (4240, 4249); (6112, 6121);
   (6160, 6169); (6470, 6479); (6608, 6617); (6784, 6793); (6800, 6809);
   (6992, 7001); (7088, 7097); (7232, 7241); (7248, 7257); (42528, 42537);
   (43216, 43225); (43264, 43273); (43472, 43481); (43504, 43513);
   (43600, 43609); (44016, 44025); (65296, 65305); (66720, 66729);
   (68912, 68921); (69734, 69743); (69872, 69881); (69942, 69951);
   (70096, 70105); (70384, 70393); (70736, 70745); (70864, 70873);
   (71248, 71257); (71360, 71369); (71472, 71481); (71904, 71913);
   (72016, 72025); (72784, 72793); (73040, 73049); (73120, 73129);
   (92768, 92777); (92864, 92873); (93008, 93017); (120782, 120791);
   (120792, 120801); (120802, 120811); (120812, 120821); (120822, 120831);
   (123200, 123209); (123632, 123641); (125264, 125273); (130032, 130041)]%N.

(** The white space that [int] skips at both ends. *)
Definition int_space_ranges : list (N * N) :=
  [(9, 13); (32, 32); (133, 133); (160, 160); (5760, 5760); (8192, 8202);
   (8232, 8233); (8239, 8239); (8287, 8287); (12288, 12288)]%N.


Definition in_ranges (ranges : list (N * N)) (cp : N) : bool :=
  existsb (fun r => (fst r <=? cp)%N && (cp <=? snd r)%N) ranges.

(** [s.isdigit()]: at least one character, and digits only. *)
Definition isdigit (s : string) : bool :=
  match code_points s with
  | Some (cp :: cps) => forallb (in_ranges digit_ranges) (cp :: cps)
  | _ => false
  end.

(** The value of a decimal digit. *)
Definition decimal_value (cp : N) : option Z :=
  match List.find (fun r => (fst r <=? cp)%N && (cp <=? snd r)%N) decimal_ranges with
  | Some r => Some (Z.of_N (cp - fst r))
  | None => None
  end.

(** A decimal digit of some script, as [\d] matches it. *)
Definition is_decimal (cp : N) : bool := in_ranges decimal_ranges cp.

(** A string of decimal digits. *)
Definition decimal_text (s : string) : Prop :=
  exists cps : list N,
    code_points s = Some cps /\ Forall (fun cp => is_decimal cp = true) cps.

(** The code points of the ranges, one by one. *)
Definition range_members (ranges : list (N * N)) : list N :=
  flat_map (fun r => List.map N.of_nat
                       (List.seq (N.to_nat (fst r))
                                 (N.to_nat (snd r) + 1 - N.to_nat (fst r))))
           ranges.

Definition int_space (cp : N) : bool := in_ranges int_space_ranges cp.

Fixpoint skip_space (cps : list N) : list N :=
  match cps with
  | [] => []
  | cp :: cps' => if int_space cp then skip_space cps' else cps
  end.

Definition trim_space (cps : list N) : list N :=
  List.rev (skip_space (List.rev (skip_space cps))).

(** The body of an integer literal accepted by [int]: digits, with single
    underscores allowed between two digits.  [prev] tells whether the
    previous character was a digit. *)
Fixpoint int_body (acc : Z) (prev : bool) (cps : list N) : option Z :=
  match cps with
  | [] => if prev then Some acc else None
  | cp :: cps' =>
      match decimal_value cp with
      | Some d => int_body (10 * acc + d) true cps'
      | None =>
          if (cp =? 95)%N && prev then int_body acc false cps'
          else None
      end
  end.

(** [int(s)] on the code points of [s]: white space at both ends, a sign,
    the body. *)
Definition int_of_code_points (cps : list N) : option Z :=
  match trim_space cps with
  | cp :: cps' =>
      if (cp =? 45)%N then option_map Z.opp (int_body 0 false cps')
      else if (cp =? 43)%N then int_body 0 false cps'
      else int_body 0 false (cp :: cps')
  | [] => None
  end.

(** [int(s)]; [None] stands for [ValueError].  The limit that the
    interpreter puts on the number of digits is not part of it. *)
Definition py_int (s : string) : option Z :=
  match code_points s with
  | Some cps => int_of_code_points cps
  | None => None
  end.

Definition digit_char (d : Z) : ascii := ascii_of_nat (Z.to_nat d + 48).

(** Decimal digits of a non-negative number, most significant first; the
    fuel bounds the number of digits. *)
Fixpoint digits_of (fuel : nat) (n : Z) (acc : string) : string :=
  match fuel with
  | O => acc
  | S fuel' =>
      let acc' := String (digit_char (n mod 10)) acc in
      if (n <? 10)%Z then acc' else digits_of fuel' (n / 10) acc'
  end.

(** [str(n)] for an [int]. *)
Definition str (n : Z) : string :=
  if (n <? 0)%Z then String "-" (digits_of (S (Z.to_nat (Z.log2 (- n)))) (- n) EmptyString)
  else digits_of (S (Z.to_nat (Z.log2 n))) n EmptyString.

(** [sep.join(parts)] *)
Fixpoint join (sep : string) (parts : list string) : string :=
  match parts with
  | [] => EmptyString
  | [x] => x
  | x :: rest => x ++ sep ++ join sep rest
  end.

(** [needle] occurs in [hay]. *)
Definition occurs_in (needle hay : string) : Prop :=
  exists before after : string, hay = before ++ needle ++ after.

End PyStr.

(** ** Exceptions

    A Python call either returns a value or raises; the code below only ever
    tells the two apart, so one constructor stands for every exception. *)

Inductive exn (A : Type) : Type :=
| Return (a : A)
| Raise.

Arguments Return {A} a.
Arguments Raise {A}.

Definition bind_exn {A B : Type} (m : exn A) (k : A -> exn B) : exn B :=
  match m with
  | Return a => k a
  | Raise => Raise
  end.

Notation "'do' x <- m ; k" := (bind_exn m (fun x => k))
  (at level 10, x name, m at level 100, k at level 200).

(** [try: m except Exception: handler] *)
Definition catch {A : Type} (m : exn A) (handler : A) : A :=
  match m with
  | Return a => a
  | Raise => handler
  end.

(** A library call that raises instead of returning. *)
Definition lift_opt {A : Type} (o : option A) : exn A :=
  match o with
  | Some a => Return a
  | None => Raise
  end.

(** ** [anti_bot.py]: throttle state, backoff, detection *)

Module anti_bot.

Import PyStr.

Local Open Scope Q_scope.

(** The attributes of class [AntiBot]. *)
Record AntiBot : Type := mkAntiBot {
  request_count : Z;
  start_time : Q;
  backoff_factor : Q;
  max_backoff : Q
}.

(** [AntiBot.__init__], at clock reading [now]. *)
Definition init (now : Q) : AntiBot :=
  {| request_count := 0%Z; start_time := now;
     backoff_factor := 1; max_backoff := 30 |}.

(** [AntiBot.reset_backoff] *)
Definition reset_backoff (ab : AntiBot) : AntiBot :=
  {| request_count := request_count ab; start_time := start_time ab;
     backoff_factor := 1; max_backoff := max_backoff ab |}.

(** [random.uniform(a, b)] is [a + (b - a) * random()]; [u] is the value
    drawn by [random()]. *)
Definition uniform (a b u : Q) : Q := a + (b - a) * u.

Definition Qltb (x y : Q) : bool := negb (Qle_bool y x).

(** The branch shared by both variants (lines 96-101 and 118-123): the new
    throttle object and the drawn [sleep_time]. *)
Definition escalate (increase : bool) (u : Q) (ab : AntiBot) : Q * AntiBot :=
  if increase then
    let f := Qmin (backoff_factor ab * 1.5) (max_backoff ab) in
    (uniform (f * 2) (f * 4) u,
     {| request_count := request_count ab; start_time := start_time ab;
        backoff_factor := f; max_backoff := max_backoff ab |})
  else
    (uniform 1 3 u, reset_backoff ab).

(** [backoff(increase)].  [u] is the random draw, [t1] the clock read on line
    104 and [t2] the one read on line 108.  The result is the duration handed
    to [time.sleep] and the throttle object left behind. *)
Definition backoff (increase : bool) (u t1 t2 : Q) (ab : AntiBot) : Q * AntiBot :=
  let '(sleep_time, ab1) := escalate increase u ab in
  let count := (request_count ab1 + 1)%Z in
  let elapsed := t1 - start_time ab1 in
  if Qltb elapsed 60 && (10 <? count)%Z then
    (sleep_time + (60 - elapsed),
     {| request_count := 0%Z; start_time := t2;
        backoff_factor := backoff_factor ab1; max_backoff := max_backoff ab1 |})
  else
    (sleep_time,
     {| request_count := count; start_time := start_time ab1;
        backoff_factor := backoff_factor ab1; max_backoff := max_backoff ab1 |}).

(** [async_backoff(increase)]: the duration handed to [asyncio.sleep] and the
    throttle object left behind. *)
Definition async_backoff (increase : bool) (u : Q) (ab : AntiBot) : Q * AntiBot :=
  escalate increase u ab.

(** One call on the shared object, by either variant. *)
Inductive call : Type :=
| Sync (increase : bool) (u t1 t2 : Q)
| Async (increase : bool) (u : Q).

Definition increase_of (c : call) : bool :=
  match c with
  | Sync i _ _ _ => i
  | Async i _ => i
  end.

Definition step (ab : AntiBot) (c : call) : Q * AntiBot :=
  match c with
  | Sync i u t1 t2 => backoff i u t1 t2 ab
  | Async i u => async_backoff i u ab
  end.

(** The shared object after a sequence of calls, oldest first. *)
Definition run (cs : list call) (ab : AntiBot) : AntiBot :=
  fold_left (fun s c => snd (step s c)) cs ab.

Definition captcha_indicators : list string :=
  [ "captcha"; "recaptcha"; "hcaptcha"; "cloudflare";
    "please verify"; "security check"; "robot verification";
    "prove you're human" ]%string.

(** [detect_captcha(response_text)] *)
Definition detect_captcha (response_text : string) : bool :=
  let response_lower := lower response_text in
  existsb (fun indicator => contains indicator response_lower) captcha_indicators.

Definition rate_limit_indicators : list string :=
  [ "rate limit"; "too many requests"; "slow down"; "exceeded";
    "throttled"; "temporarily blocked" ]%string.

(** [detect_rate_limit(response_text, status_code)] *)
Definition detect_rate_limit (response_text : string) (status_code : Z) : bool :=
  if (status_code =? 429)%Z then true
  else
    let response_lower := lower response_text in
    existsb (fun indicator => contains indicator response_lower) rate_limit_indicators.

(** The number of calls of the blocking variant in a sequence. *)
Definition sync_calls (cs : list call) : Z :=
  Z.of_nat (List.length (List.filter (fun c => match c with
                                               | Sync _ _ _ _ => true
                                               | Async _ _ => false
                                               end) cs)).

(** What every call keeps true of the shared object. *)
Definition within_bounds (ab : AntiBot) : Prop :=
  1 <= backoff_factor ab /\ backoff_factor ab <= 30 /\ max_backoff ab = 30.

(** The values that [backoff_factor] takes: [1.5 ** k] for [k] up to 8, and
    the cap.  Each is a multiple of [2 ** -8] below [2 ** 5], so the float
    products and comparisons of lines 97 and 119 are exact on them and the
    rationals follow the floats step for step. *)
Definition factor_levels : list Q :=
  [ 1; 1.5; 2.25; 3.375; 5.0625; 7.59375; 11.390625; 17.0859375;
    25.62890625; 30 ].

End anti_bot.

(** ** The regular expressions of [pagination.py]

    Every pattern of the module has the shape
    [literal  separator  (\d+)  literal]: a literal prefix, a separator
    drawn from a character class (absent, required or optional), a captured
    run of digits and a literal suffix.  Neither a separator nor the first
    character of a suffix is a digit, so the greedy [\d+] never has to give
    digits back and matching is deterministic.  The literals and the
    separators are ASCII, so that a match begins and ends between two
    characters of the text; [\d] is a decimal digit of any script. *)

Module re.

Import PyStr.

Local Open Scope string_scope.

Inductive sep_spec : Type :=
| NoSep
| OneOf (cs : list ascii)
| Optional (cs : list ascii).

Record pattern : Type := mkPattern {
  lit_before : string;
  separator : sep_spec;
  lit_after : string
}.

(** [s] without the prefix [p], when it starts with it. *)
Fixpoint drop_prefix (p s : string) : option string :=
  match p with
  | EmptyString => Some s
  | String a p' =>
      match s with
      | EmptyString => None
      | String b s' => if Ascii.eqb a b then drop_prefix p' s' else None
      end
  end.

Definition in_class (cs : list ascii) (c : ascii) : bool :=
  existsb (Ascii.eqb c) cs.

Definition eat_sep (sp : sep_spec) (s : string) : option string :=
  match sp with
  | NoSep => Some s
  | OneOf cs =>
      match s with
      | String c s' => if in_class cs c then Some s' else None
      | EmptyString => None
      end
  | Optional cs =>
      match s with
      | String c s' => if in_class cs c then Some s' else Some s
      | EmptyString => Some s
      end
  end.

(** The longest run of decimal digits at the head of [s], and what follows
    it.  A digit takes one to four bytes. *)
Fixpoint span_digits (s : string) : string * string :=
  match s with
  | EmptyString => (EmptyString, EmptyString)
  | String b0 r0 =>
      let n0 := byte b0 in
      if (n0 <? 128)%N then
        if is_decimal n0
        then let '(ds, rest) := span_digits r0 in (String b0 ds, rest)
        else (EmptyString, s)
      else if (n0 <? 192)%N then (EmptyString, s)
      else if (n0 <? 224)%N then
        match r0 with
        | String b1 r1 =>
            match continuation b1 with
            | Some c1 =>
                match scalar 128 ((n0 - 192) * 64 + c1) with
                | Some cp =>
                    if is_decimal cp
                    then let '(ds, rest) := span_digits r1 in
                         (String b0 (String b1 ds), rest)
                    else (EmptyString, s)
                | None => (EmptyString, s)
                end
            | None => (EmptyString, s)
            end
        | _ => (EmptyString, s)
        end
      else if (n0 <? 240)%N then
        match r0 with
        | String b1 (String b2 r2) =>
            match continuation b1, continuation b2 with
            | Some c1, Some c2 =>
                match scalar 2048 ((n0 - 224) * 4096 + c1 * 64 + c2) with
                | Some cp =>
                    if is_decimal cp
                    then let '(ds, rest) := span_digits r2 in
                         (String b0 (String b1 (String b2 ds)), rest)
                    else (EmptyString, s)
                | None => (EmptyString, s)
                end
            | _, _ => (EmptyString, s)
            end
        | _ => (EmptyString, s)
        end
      else if (n0 <? 248)%N then
        match r0 with
        | String b1 (String b2 (String b3 r3)) =>
            match continuation b1, continuation b2, continuation b3 with
            | Some c1, Some c2, Some c3 =>
                match scalar 65536 ((n0 - 240) * 262144 + c1 * 4096
                                    + c2 * 64 + c3) with
                | Some cp =>
                    if is_decimal cp
                    then let '(ds, rest) := span_digits r3 in
                         (String b0 (String b1 (String b2 (String b3 ds))), rest)
                    else (EmptyString, s)
                | None => (EmptyString, s)
                end
            | _, _, _ => (EmptyString, s)
            end
        | _ => (EmptyString, s)
        end
      else (EmptyString, s)
  end.

(** A match anchored at the head of [s]: group 1 and the text after the
    match. *)
Definition match_at (p : pattern) (s : string) : option (string * string) :=
  match drop_prefix (lit_before p) s with
  | None => None
  | Some s1 =>
      match eat_sep (separator p) s1 with
      | None => None
      | Some s2 =>
          let '(ds, s3) := span_digits s2 in
          if truthy ds then
            match drop_prefix (lit_after p) s3 with
            | Some rest => Some (ds, rest)
            | None => None
            end
          else None
      end
  end.

(** [re.search(p, s)]: the leftmost match, as the text before it, group 1
    and the text after it. *)
Fixpoint search (p : pattern) (s : string) : option (string * string * string) :=
  match match_at p s with
  | Some (ds, rest) => Some (EmptyString, ds, rest)
  | None =>
      match s with
      | EmptyString => None
      | String c s' =>
          match search p s' with
          | Some (before, ds, rest) => Some (String c before, ds, rest)
          | None => None
          end
      end
  end.

(** [re.sub(p, repl, s)] for a replacement text without escapes: every
    match, scanning from the left and resuming after each match, is replaced
    by [repl].  The fuel is the number of characters left to scan. *)
Fixpoint sub_fuel (fuel : nat) (p : pattern) (repl s : string) : string :=
  match fuel with
  | O => s
  | S fuel' =>
      match match_at p s with
      | Some (_, rest) => repl ++ sub_fuel fuel' p repl rest
      | None =>
          match s with
          | EmptyString => EmptyString
          | String c s' => String c (sub_fuel fuel' p repl s')
          end
      end
  end.

Definition sub (p : pattern) (repl s : string) : string :=
  sub_fuel (S (String.length s)) p repl s.

(** The texts that a separator specification matches. *)
Definition sep_ok (sp : sep_spec) (sep : string) : bool :=
  match sp, sep with
  | NoSep, EmptyString => true
  | OneOf cs, String c EmptyString => in_class cs c
  | Optional cs, EmptyString => true
  | Optional cs, String c EmptyString => in_class cs c
  | _, _ => false
  end.

End re.

(** ** The interface to [urllib.parse]

    [urljoin], [urlparse], [ParseResult.geturl] and [parse_qs] belong to the
    Python library, not to the program: the program is embedded over any
    implementation of them.  [urlparse] and [urljoin] raise [ValueError] on
    some inputs, which [None] stands for. *)

Module urllib.

(** The six fields of [ParseResult]. *)
Record ParseResult : Type := mkParseResult {
  scheme : string;
  netloc : string;
  path : string;
  params : string;
  query : string;
  fragment : string
}.

(** [parsed._replace(path=new_path)] *)
Definition replace_path (new_path : string) (r : ParseResult) : ParseResult :=
  {| scheme := scheme r; netloc := netloc r; path := new_path;
     params := params r; query := query r; fragment := fragment r |}.

(** [parsed._replace(query=new_query)] *)
Definition replace_query (new_query : string) (r : ParseResult) : ParseResult :=
  {| scheme := scheme r; netloc := netloc r; path := path r;
     params := params r; query := new_query; fragment := fragment r |}.

(** A [dict] from strings to lists of strings, in insertion order. *)
Definition qdict : Type := list (string * list string).

Class UrlLib : Type := {
  urljoin : string -> string -> option string;
  urlparse : string -> option ParseResult;
  geturl : ParseResult -> string;
  parse_qs : string -> qdict
}.

(** [param in d] and [d[param]] *)
Fixpoint lookup_key (k : string) (d : qdict) : option (list string) :=
  match d with
  | [] => None
  | (k', v) :: d' => if String.eqb k k' then Some v else lookup_key k d'
  end.

(** [d[k] = v] on a key that is present keeps the position of the entry. *)
Fixpoint assign_key (k : string) (v : list string) (d : qdict) : qdict :=
  match d with
  | [] => [(k, v)]
  | (k', v') :: d' =>
      if String.eqb k k' then (k, v) :: d' else (k', v') :: assign_key k v d'
  end.

End urllib.

(** ** [pagination.py] *)

Module pagination.

Import PyStr urllib.

Local Open Scope string_scope.

(** What the program asks of a parsed page.  An anchor is an [<a>] element
    with [link.get('href')] and [link.get_text(strip=True)]; an element
    answers [element.get(attr)] and lists the anchors below it in document
    order; a page answers [soup.select_one(selector)]. *)
Record Anchor : Type := mkAnchor {
  a_href : option string;
  a_text : string
}.

Record Tag : Type := mkTag {
  tag_attrs : list (string * string);
  tag_anchors : list Anchor
}.

Record Soup : Type := mkSoup {
  select_one : string -> option Tag
}.

(** [element.get(attr)] *)
Fixpoint get (attr : string) (attrs : list (string * string)) : option string :=
  match attrs with
  | [] => None
  | (k, v) :: attrs' => if String.eqb attr k then Some v else get attr attrs'
  end.

Definition next_button_selectors : list string :=
  [ "li.next a"; ".next a"; "a.next"; ".pagination .next"; ".pager-next a";
    ".next-page"; "[rel='next']"; "a[aria-label*='next']";
    "a[title*='next']"; ".pagination-next a" ].

(** [_find_next_button]: the loop over the selectors. *)
Fixpoint find_next_button_in (soup : Soup) (selectors : list string) : option string :=
  match selectors with
  | [] => None
  | selector :: rest =>
      match select_one soup selector with
      | Some element =>
          let href := get "href" (tag_attrs element) in
          if truthy_opt href then href else find_next_button_in soup rest
      | None => find_next_button_in soup rest
      end
  end.

Definition _find_next_button (soup : Soup) : option string :=
  find_next_button_in soup next_button_selectors.

Definition pagination_selectors : list string :=
  [ ".pagination"; ".pager"; ".page-numbers"; ".paginate"; ".page-nav";
    ".pagination-wrapper" ].

Definition next_words : list string := [ "next"; ">"; "→" ].

(** [value in words] on a list of strings. *)
Definition in_list (value : string) (words : list string) : bool :=
  existsb (String.eqb value) words.

(** [pagination.find_all('a', href=True)] *)
Definition find_all_a_href (t : Tag) : list (string * string) :=
  flat_map (fun a => match a_href a with
                     | Some h => [(h, a_text a)]
                     | None => []
                     end) (tag_anchors t).

(** The loop over [page_links] (lines 80-87).  [Return (Some h)] is
    [return link['href']], [Return None] is the end of the loop and [Raise]
    an exception of [int]. *)
Fixpoint scan_links (current_page : option Z) (page_links : list (string * string))
  : exn (option string) :=
  match page_links with
  | [] => Return None
  | (href, link_text) :: rest =>
      if isdigit link_text then
        match py_int link_text with
        | None => Raise
        | Some page_num =>
            match current_page with
            | Some cp =>
                if negb (cp =? 0)%Z && (page_num =? cp + 1)%Z
                then Return (Some href)
                else scan_links current_page rest
            | None => scan_links current_page rest
            end
        end
      else if in_list (lower link_text) next_words then Return (Some href)
      else scan_links current_page rest
  end.

(** The loop over [pagination_selectors] (lines 76-87). *)
Fixpoint scan_containers (soup : Soup) (current_page : option Z)
  (selectors : list string) : exn (option string) :=
  match selectors with
  | [] => Return None
  | selector :: rest =>
      match select_one soup selector with
      | Some pagination =>
          do r <- scan_links current_page (find_all_a_href pagination);
          match r with
          | Some href => Return (Some href)
          | None => scan_containers soup current_page rest
          end
      | None => scan_containers soup current_page rest
      end
  end.

(** The links that [_find_numbered_next] goes through, in the order in which
    it does: container after container, each in document order. *)
Definition links_under (soup : Soup) (selectors : list string) : list (string * string) :=
  flat_map (fun selector => match select_one soup selector with
                            | Some pagination => find_all_a_href pagination
                            | None => []
                            end) selectors.

Definition page_links (soup : Soup) : list (string * string) :=
  links_under soup pagination_selectors.

(** The links on which the loop of [_find_numbered_next] returns when the
    current page is [current_page]: a number equal to the current page plus
    one, or one of the words for "next". *)
Definition wanted (current_page : Z) (link : string * string) : bool :=
  let link_text := snd link in
  if isdigit link_text then
    match py_int link_text with
    | Some page_num => (page_num =? current_page + 1)%Z
    | None => false
    end
  else in_list (lower link_text) next_words.

(** [int] reads the text of the link when [isdigit] accepts it. *)
Definition parseable (link : string * string) : Prop :=
  isdigit (snd link) = true -> py_int (snd link) <> None.

Section Handler.

Context {lib : UrlLib}.

(** [r'/page[-_/]?(\d+)'] *)
Definition page_number_pattern : re.pattern :=
  re.mkPattern "/page" (re.Optional ["-"; "_"; "/"]%char) "".

(** The loop over the query parameters of [_extract_page_number]; a failed
    [int] or an empty list moves on to the next name. *)
Fixpoint page_number_param (names : list string) (query_params : qdict) : option Z :=
  match names with
  | [] => None
  | param :: rest =>
      match lookup_key param query_params with
      | Some (v :: _) =>
          match py_int v with
          | Some n => Some n
          | None => page_number_param rest query_params
          end
      | Some [] => page_number_param rest query_params
      | None => page_number_param rest query_params
      end
  end.

(** [_extract_page_number(url)]; every exception ends in [return None]. *)
Definition _extract_page_number (url : string) : option Z :=
  match re.search page_number_pattern url with
  | Some (_, group1, _) => py_int group1
  | None =>
      match urlparse url with
      | Some parsed =>
          page_number_param ["page"; "p"; "pagenum"] (parse_qs (query parsed))
      | None => None
      end
  end.

(** [_find_numbered_next(soup, current_url)] *)
Definition _find_numbered_next (soup : Soup) (current_url : string) : option string :=
  let current_page := _extract_page_number current_url in
  catch (scan_containers soup current_page pagination_selectors) None.

Definition load_more_selectors : list string :=
  [ ".load-more"; ".show-more"; ".view-more";
    "[data-next-url]"; "[data-load-more]"; ".infinite-scroll" ].

Definition load_more_attrs : list string :=
  [ "data-next-url"; "data-load-more"; "data-url"; "href" ].

(** The loop over the attribute names (lines 101-104). *)
Fixpoint first_url_attr (element : Tag) (attrs : list string) : option string :=
  match attrs with
  | [] => None
  | attr :: rest =>
      let url := get attr (tag_attrs element) in
      if truthy_opt url then url else first_url_attr element rest
  end.

Fixpoint find_load_more_in (soup : Soup) (selectors : list string) : option string :=
  match selectors with
  | [] => None
  | selector :: rest =>
      match select_one soup selector with
      | Some element =>
          match first_url_attr element load_more_attrs with
          | Some url => Some url
          | None => find_load_more_in soup rest
          end
      | None => find_load_more_in soup rest
      end
  end.

(** [_find_load_more(soup)] *)
Definition _find_load_more (soup : Soup) : option string :=
  find_load_more_in soup load_more_selectors.

(** [path_patterns]: each regular expression with the text around the
    [{}] of its replacement. *)
Definition path_patterns : list (re.pattern * (string * string)) :=
  [ (re.mkPattern "/page" (re.OneOf ["-"; "_"; "/"]%char) "", ("/page-", ""));
    (re.mkPattern "/page" (re.OneOf ["-"; "_"; "/"]%char) "/", ("/page-", "/"));
    (re.mkPattern "page" (re.OneOf ["-"; "_"]%char) ".html", ("page-", ".html"));
    (re.mkPattern "p" re.NoSep ".html", ("p", ".html")) ].

(** [replacement.format(next_page)] *)
Definition format (replacement : string * string) (n : Z) : string :=
  fst replacement ++ str n ++ snd replacement.

(** The first entry of [path_patterns] whose expression matches a path. *)
Definition first_matching (s : string) : option (re.pattern * (string * string)) :=
  List.find (fun entry => match re.search (fst entry) s with
                          | Some _ => true
                          | None => false
                          end) path_patterns.

(** What the replacements write for a separator: a hyphen where there was
    one of [-], [_], [/], nothing where the pattern has no separator. *)
Definition hyphen (sep : string) : string :=
  if truthy sep then "-" else "".

(** The loop over [path_patterns] (lines 120-126): [Return (Some url)] is
    the [return], [Return None] the end of the loop, [Raise] an exception. *)
Fixpoint rewrite_path (parsed : ParseResult) (patterns : list (re.pattern * (string * string)))
  : exn (option string) :=
  match patterns with
  | [] => Return None
  | (pattern, replacement) :: rest =>
      match re.search pattern (path parsed) with
      | Some (_, group1, _) =>
          do current_page <- lift_opt (py_int group1);
          let next_page := (current_page + 1)%Z in
          let new_path := re.sub pattern (format replacement next_page) (path parsed) in
          Return (Some (geturl (replace_path new_path parsed)))
      | None => rewrite_path parsed rest
      end
  end.

(** ['&'.join(f"{k}={v[0]}" for k, v in query_params.items())]; an empty
    list of values raises [IndexError]. *)
Fixpoint query_items (query_params : qdict) : option (list string) :=
  match query_params with
  | [] => Some []
  | (k, v :: _) :: rest =>
      match query_items rest with
      | Some items => Some ((k ++ "=" ++ v) :: items)
      | None => None
      end
  | (_, []) :: _ => None
  end.

(** The loop over the parameter names (lines 129-138).  The assignment on
    line 134 stays in the dictionary when the [join] after it raises. *)
Fixpoint rewrite_query (parsed : ParseResult) (names : list string) (query_params : qdict)
  : option string :=
  match names with
  | [] => None
  | param :: rest =>
      match lookup_key param query_params with
      | Some (v :: _) =>
          match py_int v with
          | Some current_page =>
              let next_page := (current_page + 1)%Z in
              let query_params' := assign_key param [str next_page] query_params in
              match query_items query_params' with
              | Some items =>
                  Some (geturl (replace_query (join "&" items) parsed))
              | None => rewrite_query parsed rest query_params'
              end
          | None => rewrite_query parsed rest query_params
          end
      | Some [] => rewrite_query parsed rest query_params
      | None => rewrite_query parsed rest query_params
      end
  end.

(** [_construct_next_page_url(current_url)] *)
Definition _construct_next_page_url (current_url : string) : option string :=
  catch
    (do parsed <- lift_opt (urlparse current_url);
     do r <- rewrite_path parsed path_patterns;
     match r with
     | Some url => Return (Some url)
     | None =>
         Return (rewrite_query parsed ["page"; "p"; "pagenum"; "offset"; "start"]
                   (parse_qs (query parsed)))
     end)
    None.

(** One of the four blocks of [get_next_page] (e.g. lines 16-20), up to the
    test on the visited set: the absolute URL when the strategy produced a
    non-empty link whose absolute form has not been visited. *)
Definition fresh (current_url : string) (visited_urls : gset string)
  (next_url : option string) : exn (option string) :=
  match next_url with
  | Some u =>
      if truthy u then
        do full_url <- lift_opt (urljoin current_url u);
        if decide (full_url ∈ visited_urls) then Return None
        else Return (Some full_url)
      else Return None
  | None => Return None
  end.

(** [PaginationHandler.get_next_page(soup, current_url)], on a handler whose
    [visited_urls] is the given set: the value returned and the set left in
    the handler. *)
Definition get_next_page (soup : Soup) (current_url : string)
  (visited_urls : gset string) : exn (option string * gset string) :=
  do r1 <- fresh current_url visited_urls (_find_next_button soup);
  match r1 with
  | Some full_url => Return (Some full_url, {[full_url]} ∪ visited_urls)
  | None =>
  do r2 <- fresh current_url visited_urls (_find_numbered_next soup current_url);
  match r2 with
  | Some full_url => Return (Some full_url, {[full_url]} ∪ visited_urls)
  | None =>
  do r3 <- fresh current_url visited_urls (_find_load_more soup);
  match r3 with
  | Some full_url => Return (Some full_url, {[full_url]} ∪ visited_urls)
  | None =>
  do r4 <- fresh current_url visited_urls (_construct_next_page_url current_url);
  match r4 with
  | Some full_url => Return (Some full_url, {[full_url]} ∪ visited_urls)
  | None => Return (None, visited_urls)
  end end end end.

End Handler.

End pagination.

(** ** [static_scraper.py] *)

Module static_scraper.

Import PyStr urllib.

Local Open Scope string_scope.

(** What the loop reads from a parsed page: the [article.product_pod]
    elements, each with the attributes of [item.h3.a] (absent when [item.h3]
    or its anchor is) and the text of [p.price_color]; and the attributes of
    [li.next > a]. *)
Record Pod : Type := mkPod {
  h3_a : option (list (string * string));
  price_color : option string
}.

Record Page : Type := mkPage {
  product_pods : list Pod;
  next_button : option (list (string * string))
}.

(** The outcome of [session.get]: an exception of the transport, or a
    response with its status and parsed body. *)
Inductive response : Type :=
| TransportError
| Response (status_code : Z) (page : Page).

(** [resp.raise_for_status()] raises on the 4xx and 5xx codes. *)
Definition raise_for_status (status_code : Z) : bool :=
  (400 <=? status_code)%Z && (status_code <? 600)%Z.

Record Product : Type := mkProduct {
  name : string;
  price : string;
  link : string
}.

(** What the loop does to the outside world, in order. *)
Inductive event : Type :=
| Get (url : string)
| Sleep (seconds : Q).

(** [d.get(key, default)] *)
Definition get_default (key default : string) (attrs : list (string * string)) : string :=
  match pagination.get key attrs with
  | Some v => v
  | None => default
  end.

(** The request fails: [session.get] raises, or the status is one on which
    [raise_for_status] raises. *)
Definition fails (r : response) : bool :=
  match r with
  | TransportError => true
  | Response status_code _ => raise_for_status status_code
  end.

Section Scraper.

Context {lib : UrlLib}.

(** The reply of the server to the [n]-th request of the crawl. *)
Variable fetch : nat -> string -> response.

(** [Config.REQUEST_DELAY] *)
Variable REQUEST_DELAY : Q.

Definition base_url : string := "https://books.toscrape.com".

(** [max_products and len(products) >= max_products] *)
Definition limit_reached (max_products : Z) (products : list Product) : bool :=
  negb (max_products =? 0)%Z && (max_products <=? Z.of_nat (List.length products))%Z.

(** The body of the loop over [items] (lines 50-57); [Raise] is the
    [AttributeError] of a pod without [h3] or anchor, or an exception of
    [urljoin]. *)
Definition make_product (current_url : string) (item : Pod) : exn Product :=
  do a <- lift_opt (h3_a item);
  let name := strip (get_default "title" "" a) in
  let price := match price_color item with
               | Some text => strip text
               | None => ""
               end in
  let link := get_default "href" "" a in
  do link <- (if startswith "http" link then Return link
              else lift_opt (urljoin current_url link));
  Return {| name := name; price := price; link := link |}.

(** The loop over [items] (lines 46-58). *)
Fixpoint collect (current_url : string) (max_products : Z) (items : list Pod)
  (products : list Product) : exn (list Product) :=
  match items with
  | [] => Return products
  | item :: rest =>
      if limit_reached max_products products then Return products
      else
        do product <- make_product current_url item;
        collect current_url max_products rest (products ++ [product])%list
  end.

(** The [while] loop of [scrape_static] (lines 34-72).  [n] counts the
    requests issued so far, [current_url] is [None] once line 70 has run.
    The result is [None] when the fuel, a bound on the number of iterations,
    runs out before the loop ends. *)
Fixpoint crawl (fuel n : nat) (max_products : Z) (current_url : option string)
  (products : list Product) (trace : list event)
  : option (exn (list Product) * list event) :=
  match current_url with
  | None => Some (Return products, trace)
  | Some url =>
      if negb (truthy url) then Some (Return products, trace)
      else
        match fuel with
        | O => None
        | S fuel' =>
            let trace := (trace ++ [Get url])%list in
            match fetch n url with
            | TransportError => Some (Return products, trace)
            | Response status_code page =>
                if raise_for_status status_code then Some (Return products, trace)
                else
                  match collect url max_products (product_pods page) products with
                  | Raise => Some (Raise, trace)
                  | Return products =>
                      if limit_reached max_products products
                      then Some (Return products, trace)
                      else
                        match next_button page with
                        | Some a =>
                            match pagination.get "href" a with
                            | Some next_href =>
                                match urljoin url next_href with
                                | Some next => crawl fuel' (S n) max_products (Some next)
                                                 products (trace ++ [Sleep REQUEST_DELAY])%list
                                | None => Some (Raise, trace)
                                end
                            | None => crawl fuel' (S n) max_products (Some url)
                                        products (trace ++ [Sleep REQUEST_DELAY])%list
                            end
                        | None => crawl fuel' (S n) max_products None
                                    products (trace ++ [Sleep REQUEST_DELAY])%list
                        end
                  end
            end
        end
  end.

(** [StaticScraper.scrape_static(url, max_products)] *)
Definition scrape_static (fuel : nat) (url : string) (max_products : Z)
  : option (exn (list Product) * list event) :=
  let current_url := if truthy url then url else base_url in
  crawl fuel 0 max_products (Some current_url) [] [].

(** The requests of a trace, in order. *)
Definition requests (trace : list event) : list string :=
  flat_map (fun e => match e with Get url => [url] | Sleep _ => [] end) trace.

End Scraper.

End static_scraper.

(** ** A reference implementation of the [urllib.parse] interface

    It follows CPython's [urlsplit], [urlunsplit], [urljoin] and [parse_qs]
    on URLs without percent escapes and without control characters, which is
    enough to run the program on concrete pages. *)

Module urllib_model.

Import PyStr urllib.

Local Open Scope string_scope.

(** [s.split(c, 1)] when [c] occurs in [s]. *)
Fixpoint split_once (c : ascii) (s : string) : option (string * string) :=
  match s with
  | EmptyString => None
  | String a s' =>
      if Ascii.eqb a c then Some (EmptyString, s')
      else match split_once c s' with
           | Some (l, r) => Some (String a l, r)
           | None => None
           end
  end.

(** [s.split(c)] *)
Fixpoint split (c : ascii) (s : string) : list string :=
  match s with
  | EmptyString => [EmptyString]
  | String a s' =>
      match split c s' with
      | x :: xs => if Ascii.eqb a c then EmptyString :: x :: xs else String a x :: xs
      | [] => [EmptyString]
      end
  end.

(** The text before the first character of [cs], and the text from it on. *)
Fixpoint break_at (cs : list ascii) (s : string) : string * string :=
  match s with
  | EmptyString => (EmptyString, EmptyString)
  | String a s' =>
      if re.in_class cs a then (EmptyString, s)
      else let '(l, r) := break_at cs s' in (String a l, r)
  end.

Definition is_alpha (c : ascii) : bool :=
  let n := nat_of_ascii c in
  ((65 <=? n)%nat && (n <=? 90)%nat) || ((97 <=? n)%nat && (n <=? 122)%nat).

Definition scheme_char (c : ascii) : bool :=
  is_alpha c || is_digit c || re.in_class ["+"; "-"; "."]%char c.

Fixpoint all_chars (f : ascii -> bool) (s : string) : bool :=
  match s with
  | EmptyString => true
  | String c s' => f c && all_chars f s'
  end.

Definition has_char (c : ascii) (s : string) : bool :=
  negb (all_chars (fun a => negb (Ascii.eqb a c)) s).

Definition split_scheme (default url : string) : string * string :=
  match split_once ":" url with
  | Some (String c0 s0, rest) =>
      if is_alpha c0 && all_chars scheme_char s0
      then (lower (String c0 s0), rest) else (default, url)
  | _ => (default, url)
  end.

Definition uses_params : list string :=
  [ ""; "ftp"; "hdl"; "prospero"; "http"; "imap"; "https"; "shttp"; "rtsp";
    "rtsps"; "rtspu"; "sip"; "sips"; "mms"; "sftp"; "tel" ].

Definition uses_netloc : list string :=
  [ ""; "ftp"; "http"; "gopher"; "nntp"; "telnet"; "imap"; "wais"; "file";
    "mms"; "https"; "shttp"; "snews"; "prospero"; "rtsp"; "rtsps"; "rtspu";
    "rsync"; "svn"; "svn+ssh"; "sftp"; "nfs"; "git"; "git+ssh"; "ws"; "wss";
    "itms-services" ].

Definition uses_relative : list string :=
  [ ""; "ftp"; "http"; "gopher"; "nntp"; "imap"; "wais"; "file"; "https";
    "shttp"; "mms"; "prospero"; "rtsp"; "rtsps"; "rtspu"; "sftp"; "svn";
    "svn+ssh"; "ws"; "wss" ].

(** [_splitparams]: the parameters of the last path segment. *)
Definition split_params (url : string) : string * string :=
  let segments := split "/" url in
  match rev segments with
  | last :: before =>
      match split_once ";" last with
      | Some (l, r) => (join "/" (rev (l :: before)), r)
      | None => (url, EmptyString)
      end
  | [] => (url, EmptyString)
  end.

(** [urlparse(url, scheme=default)] *)
Definition urlparse_with (default url : string) : option ParseResult :=
  let '(sch, url) := split_scheme default url in
  let '(loc, url) :=
    match url with
    | String "/" (String "/" rest) => break_at ["/"; "?"; "#"]%char rest
    | _ => (EmptyString, url)
    end in
  if xorb (has_char "[" loc) (has_char "]" loc) then None
  else
    let '(url, frag) := match split_once "#" url with
                        | Some (l, r) => (l, r)
                        | None => (url, EmptyString)
                        end in
    let '(url, qry) := match split_once "?" url with
                       | Some (l, r) => (l, r)
                       | None => (url, EmptyString)
                       end in
    let '(url, prm) := if pagination.in_list sch uses_params && has_char ";" url
                       then split_params url else (url, EmptyString) in
    Some {| scheme := sch; netloc := loc; path := url; params := prm;
            query := qry; fragment := frag |}.

(** [urlunparse] *)
Definition urlunparse (r : ParseResult) : string :=
  let url := if truthy (params r) then path r ++ ";" ++ params r else path r in
  let url :=
    if truthy (netloc r)
       || (truthy (scheme r) && pagination.in_list (scheme r) uses_netloc
           && negb (startswith "//" url))
    then "//" ++ netloc r
         ++ (if truthy url && negb (startswith "/" url) then "/" ++ url else url)
    else url in
  let url := if truthy (scheme r) then scheme r ++ ":" ++ url else url in
  let url := if truthy (query r) then url ++ "?" ++ query r else url in
  if truthy (fragment r) then url ++ "#" ++ fragment r else url.

(** The loop of [urljoin] that resolves the [.] and [..] segments;
    [resolved] is kept in reverse. *)
Fixpoint resolve_dots (segments resolved : list string) : list string :=
  match segments with
  | [] => rev resolved
  | seg :: rest =>
      if String.eqb seg ".." then resolve_dots rest (tl resolved)
      else if String.eqb seg "." then resolve_dots rest resolved
      else resolve_dots rest (seg :: resolved)
  end.

(** [segments[1:-1] = filter(None, segments[1:-1])] *)
Definition drop_empty_inner (segments : list string) : list string :=
  match segments with
  | first :: rest =>
      match rev rest with
      | last :: inner => first :: (filter truthy (rev inner) ++ [last])%list
      | [] => segments
      end
  | [] => segments
  end.

Definition merge_paths (bpath path : string) : string :=
  let base_parts := split "/" bpath in
  let base_parts := match rev base_parts with
                    | last :: before => if truthy last then rev before else base_parts
                    | [] => base_parts
                    end in
  let segments := if startswith "/" path then split "/" path
                  else drop_empty_inner (base_parts ++ split "/" path)%list in
  let resolved := resolve_dots segments [] in
  let resolved := match rev segments with
                  | last :: _ =>
                      if String.eqb last "." || String.eqb last ".."
                      then (resolved ++ [EmptyString])%list else resolved
                  | [] => resolved
                  end in
  let joined := join "/" resolved in
  if truthy joined then joined else "/".

(** [urljoin(base, url)] *)
Definition urljoin_model (base url : string) : option string :=
  if negb (truthy base) then Some url
  else if negb (truthy url) then Some base
  else
    match urlparse_with "" base with
    | None => None
    | Some b =>
        match urlparse_with (scheme b) url with
        | None => None
        | Some u =>
            if negb (String.eqb (scheme u) (scheme b))
               || negb (pagination.in_list (scheme u) uses_relative)
            then Some url
            else if pagination.in_list (scheme u) uses_netloc && truthy (netloc u)
            then Some (urlunparse u)
            else
              let loc := if pagination.in_list (scheme u) uses_netloc
                         then netloc b else netloc u in
              if negb (truthy (path u)) && negb (truthy (params u)) then
                Some (urlunparse
                        {| scheme := scheme u; netloc := loc; path := path b;
                           params := params b;
                           query := if truthy (query u) then query u else query b;
                           fragment := fragment u |})
              else
                Some (urlunparse
                        {| scheme := scheme u; netloc := loc;
                           path := merge_paths (path b) (path u);
                           params := params u; query := query u;
                           fragment := fragment u |})
        end
    end.

Definition plus_to_space (s : string) : string :=
  let fix go (s : string) : string :=
    match s with
    | EmptyString => EmptyString
    | String c s' => String (if Ascii.eqb c "+" then " "%char else c) (go s')
    end in
  go s.

(** [parsed_result[name].append(value)], or a new entry at the end. *)
Fixpoint add_value (k v : string) (d : qdict) : qdict :=
  match d with
  | [] => [(k, [v])]
  | (k', vs) :: d' =>
      if String.eqb k k' then (k', (vs ++ [v])%list) :: d'
      else (k', vs) :: add_value k v d'
  end.

(** [parse_qs(qs)]: fields without [=] or with an empty value are left out. *)
Definition parse_qs_model (qs : string) : qdict :=
  if negb (truthy qs) then []
  else
    fold_left
      (fun d name_value =>
         match split_once "=" name_value with
         | Some (k, v) =>
             if truthy v then add_value (plus_to_space k) (plus_to_space v) d else d
         | None => d
         end)
      (split "&" qs) [].

Definition model : UrlLib :=
  {| urljoin := urljoin_model;
     urlparse := urlparse_with "";
     geturl := urlunparse;
     parse_qs := parse_qs_model |}.

End urllib_model.

(** ** Sample pages *)

Module samples.

Import PyStr urllib pagination.

Local Open Scope string_scope.

(** A page given by the element that each selector finds. *)
Definition soup_of (table : list (string * Tag)) : Soup :=
  {| select_one := fun selector =>
       let fix find_tag (table : list (string * Tag)) : option Tag :=
         match table with
         | [] => None
         | (k, t) :: table' => if String.eqb selector k then Some t else find_tag table'
         end in
       find_tag table |}.

Definition anchor (href text : string) : Anchor :=
  {| a_href := Some href; a_text := text |}.

(** [<div class="pagination">] with the links 1, 2, 3 and next. *)
Definition numbered_page : Soup :=
  soup_of [ (".pagination",
             {| tag_attrs := [("class", "pagination")];
                tag_anchors := [ anchor "/page/1" "1"; anchor "/page/2" "2";
                                 anchor "/page/3" "3"; anchor "/page/last" "next" ] |}) ].

(** The same container with the "next" link ahead of the numbers. *)
Definition next_first_page : Soup :=
  soup_of [ (".pagination",
             {| tag_attrs := [("class", "pagination")];
                tag_anchors := [ anchor "/page/last" "next"; anchor "/page/1" "1";
                                 anchor "/page/2" "2"; anchor "/page/3" "3" ] |}) ].

(** A container whose first link is a superscript two, which [isdigit]
    accepts and [int] rejects, followed by a "next" link. *)
Definition superscript_page : Soup :=
  soup_of [ (".pagination",
             {| tag_attrs := [("class", "pagination")];
                tag_anchors := [ anchor "/notes/2" "²"; anchor "/page/last" "next" ] |}) ].

(** A container whose links are numbered with Arabic-Indic digits. *)
Definition arabic_indic_page : Soup :=
  soup_of [ (".pagination",
             {| tag_attrs := [("class", "pagination")];
                tag_anchors := [ anchor "/page/2" "٢"; anchor "/page/3" "٣" ] |}) ].

(** A pager with a link to a numbered page and a "Next" link, on a URL
    that carries no page number. *)
Definition unnumbered_page : Soup :=
  soup_of [ (".pager",
             {| tag_attrs := [("class", "pager")];
                tag_anchors := [ anchor "/list/2" "2"; anchor "/list?after=20" "Next" ] |}) ].

(** [urlparse("/catalogue/page-3/")] *)
Definition catalogue_page_3 : ParseResult :=
  {| scheme := ""; netloc := ""; path := "/catalogue/page-3/"; params := "";
     query := ""; fragment := "" |}.

(** The first entry of the list of path patterns. *)
Definition page_sep_pattern : re.pattern :=
  re.mkPattern "/page" (re.OneOf ["-"; "_"; "/"]%char) "".

(** A product pod of books.toscrape.com. *)
Definition pod (title href price : string) : static_scraper.Pod :=
  {| static_scraper.h3_a := Some [("href", href); ("title", title)];
     static_scraper.price_color := Some price |}.

Definition listing (n : string) (next : option string) : static_scraper.Page :=
  {| static_scraper.product_pods :=
       [ pod ("Book " ++ n ++ "a") ("book-" ++ n ++ "a.html") " 10.00 ";
         pod ("Book " ++ n ++ "b") ("book-" ++ n ++ "b.html") " 11.00 ";
         pod ("Book " ++ n ++ "c") ("book-" ++ n ++ "c.html") " 12.00 " ];
     static_scraper.next_button :=
       match next with
       | Some href => Some [("href", href)]
       | None => None
       end |}.

(** A site of three pages with three books each. *)
Definition three_pages (n : nat) (url : string) : static_scraper.response :=
  if String.eqb url "https://books.toscrape.com/"
  then static_scraper.Response 200 (listing "1" (Some "page-2.html"))
  else if String.eqb url "https://books.toscrape.com/page-2.html"
  then static_scraper.Response 200 (listing "2" (Some "page-3.html"))
  else if String.eqb url "https://books.toscrape.com/page-3.html"
  then static_scraper.Response 200 (listing "3" None)
  else static_scraper.Response 404 (listing "" None).

(** The same site, whose second page answers 503. *)
Definition second_page_down (n : nat) (url : string) : static_scraper.response :=
  if String.eqb url "https://books.toscrape.com/page-2.html"
  then static_scraper.Response 503 (listing "" None)
  else three_pages n url.

(** Ten successful calls of [backoff]. *)
Definition ten_requests : list anti_bot.call :=
  List.repeat (anti_bot.Sync false (1 # 2) 5 5) 10.

(** The object after ten tallied requests, 30 units into the window. *)
Definition ten_tallied : anti_bot.AntiBot :=
  {| anti_bot.request_count := 10; anti_bot.start_time := 0;
     anti_bot.backoff_factor := 1; anti_bot.max_backoff := 30 |}.

(** The front page of books.toscrape.com: a link to the next page in
    [li.next]. *)
Definition catalogue_front : Soup :=
  soup_of [ ("li.next a",
             {| tag_attrs := [("href", "catalogue/page-2.html")];
                tag_anchors := [] |}) ].


(** A page without products whose link to the next page has no [href]. *)
Definition dangling_next : static_scraper.Page :=
  {| static_scraper.product_pods := [];
     static_scraper.next_button := Some [("class", "next")] |}.

Definition always_dangling (n : nat) (url : string) : static_scraper.response :=
  static_scraper.Response 200 dangling_next.

End samples.

(** ** [anti_bot.py]: the pool of sessions

    A session is known by the order in which the constructor created it; its
    headers are of a type [H] on which [session.headers.update] acts.  The
    headers that [requests.Session()] starts with and the ones that each
    call of [get_headers()] draws are inputs. *)

Module session_manager.

Section Pool.

Variable H : Type.

(** [headers.update(new)] *)
Variable update : H -> H -> H.

(** The headers of a new [requests.Session()]. *)
Variable default_headers : H.

Record Session : Type := mkSession {
  session_id : nat;
  headers : H
}.

(** The attributes of [SessionManager]. *)
Record SessionManager : Type := mkSessionManager {
  sessions : list Session;
  max_sessions : Z;
  current_session : Z
}.

(** [SessionManager.__init__(max_sessions)] with [_initialize_sessions];
    [drawn i] is what [get_headers()] returns in the [i]-th round of the
    loop over [range(max_sessions)]. *)
Definition new_manager (n : Z) (drawn : nat -> H) : SessionManager :=
  {| sessions := List.map (fun i => {| session_id := i;
                                       headers := update default_headers (drawn i) |})
                          (List.seq 0 (Z.to_nat n));
     max_sessions := n;
     current_session := 0 |}.

(** [l[i]] on a list: a negative index counts from the end, an index out of
    range raises [IndexError].  The result carries the position read. *)
Definition index {A : Type} (l : list A) (i : Z) : exn (nat * A) :=
  let len := Z.of_nat (List.length l) in
  let j := if (i <? 0)%Z then (i + len)%Z else i in
  if (j <? 0)%Z then Raise
  else match List.nth_error l (Z.to_nat j) with
       | Some x => Return (Z.to_nat j, x)
       | None => Raise
       end.

(** The list with its [k]-th element replaced. *)
Fixpoint store {A : Type} (l : list A) (k : nat) (x : A) : list A :=
  match l, k with
  | [], _ => []
  | _ :: l', O => x :: l'
  | y :: l', S k' => y :: store l' k' x
  end.

(** [SessionManager.get_session()], where [get_headers()] returns [fresh]:
    the session returned and the manager left behind.  The session object is
    the one held by the list, so the new headers show there as well. *)
Definition get_session (fresh : H) (m : SessionManager) : exn (Session * SessionManager) :=
  do found <- index (sessions m) (current_session m);
  let '(k, session) := found in
  if (max_sessions m =? 0)%Z then Raise
  else
    let next := ((current_session m + 1) mod max_sessions m)%Z in
    let session := {| session_id := session_id session;
                      headers := update (headers session) fresh |} in
    Return (session,
            {| sessions := store (sessions m) k session;
               max_sessions := max_sessions m;
               current_session := next |}).

(** Successive calls of [get_session], one for each element of [draws];
    the sessions returned, oldest first, and the manager left behind. *)
Fixpoint get_sessions (draws : list H) (m : SessionManager)
  : exn (list Session * SessionManager) :=
  match draws with
  | [] => Return ([], m)
  | fresh :: rest =>
      do r <- get_session fresh m;
      do rs <- get_sessions rest (snd r);
      Return (fst r :: fst rs, snd rs)
  end.

(** The pool holds the [n] sessions that the constructor made, in the order
    of their creation, and the index points into it. *)
Definition pool_of (n : Z) (m : SessionManager) : Prop :=
  max_sessions m = n /\
  List.map session_id (sessions m) = List.seq 0 (Z.to_nat n) /\
  (0 <= current_session m < n)%Z.

End Pool.

Arguments session_id {H} _.
Arguments headers {H} _.
Arguments sessions {H} _.
Arguments max_sessions {H} _.
Arguments current_session {H} _.
Arguments new_manager {H} update default_headers n drawn.
Arguments get_session {H} update fresh m.
Arguments get_sessions {H} update draws m.
Arguments pool_of {H} n m.

End session_manager.

(** ** [pagination.py]: bulk discovery, the shortcut for books.toscrape.com,
    and a walk over several pages *)

Module pagination_bulk.

Import PyStr urllib pagination.

Local Open Scope string_scope.

(** [soup.select(selector)]: every element that the selector finds, in
    document order. *)
Record Selection : Type := mkSelection {
  select : string -> list Tag
}.

Section Bulk.

Context {lib : UrlLib}.

(** [full_url not in page_urls] *)
Definition listed (full_url : string) (page_urls : list string) : bool :=
  existsb (String.eqb full_url) page_urls.

(** The loop over [links] (lines 167-172); [Raise] is an exception of
    [urljoin], with the list as it was when it was raised. *)
Fixpoint add_links (current_url : string) (max_pages : Z) (links : list Tag)
  (page_urls : list string) : list string * bool :=
  match links with
  | [] => (page_urls, true)
  | link :: rest =>
      match get "href" (tag_attrs link) with
      | Some href =>
          if truthy href then
            match urljoin current_url href with
            | Some full_url =>
                if negb (listed full_url page_urls)
                   && (Z.of_nat (List.length page_urls) <? max_pages)%Z
                then add_links current_url max_pages rest (page_urls ++ [full_url])%list
                else add_links current_url max_pages rest page_urls
            | None => (page_urls, false)
            end
          else add_links current_url max_pages rest page_urls
      | None => add_links current_url max_pages rest page_urls
      end
  end.

(** The loop over [selectors] (lines 165-172); the flag is false when an
    exception ended it. *)
Fixpoint add_selectors (page : Selection) (current_url : string) (max_pages : Z)
  (selectors : list string) (page_urls : list string) : list string * bool :=
  match selectors with
  | [] => (page_urls, true)
  | selector :: rest =>
      match add_links current_url max_pages (select page selector) page_urls with
      | (page_urls', true) => add_selectors page current_url max_pages rest page_urls'
      | (page_urls', false) => (page_urls', false)
      end
  end.

(** [PaginationHandler.get_all_page_urls(soup, current_url, max_pages)]: the
    list is returned as it stands when the loops end or an exception is
    caught. *)
Definition get_all_page_urls (page : Selection) (current_url : string) (max_pages : Z)
  : list string :=
  fst (add_selectors page current_url max_pages
         [".pagination a"; ".pager a"; ".page-numbers a"] []).

(** The function [get_next_page(soup, base_url)] at the end of the module,
    written for books.toscrape.com (lines 178-184). *)
Definition books_get_next_page (soup : Soup) (base_url : string) : exn (option string) :=
  match select_one soup "li.next a" with
  | Some next_button =>
      match get "href" (tag_attrs next_button) with
      | Some href =>
          if truthy href then
            do full_url <- lift_opt (urljoin base_url href);
            Return (Some full_url)
          else Return None
      | None => Return None
      end
  | None => Return None
  end.

(** A handler taken through a sequence of pages: [get_next_page] is called
    on each page with its URL, on the visited set left by the call before.
    The result lists the URLs returned, oldest first. *)
Fixpoint walk (pages : list (Soup * string)) (visited_urls : gset string)
  : exn (list string * gset string) :=
  match pages with
  | [] => Return ([], visited_urls)
  | (soup, current_url) :: rest =>
      do r <- get_next_page soup current_url visited_urls;
      do rs <- walk rest (snd r);
      Return (match fst r with
              | Some full_url => full_url :: fst rs
              | None => fst rs
              end, snd rs)
  end.


(** The selectors of [get_all_page_urls]. *)
Definition bulk_selectors : list string :=
  [".pagination a"; ".pager a"; ".page-numbers a"].

(** What the list of a bulk discovery looks like: no URL twice, no more
    than [max_pages] of them, each one the absolute form of the [href] of
    one of [links] or already there. *)
Definition discovered (current_url : string) (max_pages : Z) (links : list Tag)
  (before after : list string) : Prop :=
  (List.NoDup before -> List.NoDup after) /\
  ((Z.of_nat (List.length before) <= Z.max 0 max_pages)%Z ->
   (Z.of_nat (List.length after) <= Z.max 0 max_pages)%Z) /\
  (forall u : string, In u after ->
     In u before \/
     exists (link : Tag) (href : string),
       In link links /\ get "href" (tag_attrs link) = Some href /\
       truthy href = true /\ urljoin current_url href = Some u).

End Bulk.

End pagination_bulk.

(** ** [dynamic_scraper.py]

    The browser and [json.loads] are inputs: [scrape_dynamic] is given what
    lines 23-29 produce, the decoded [__NEXT_DATA__] or an exception. *)

Module dynamic_scraper.

Import PyStr.

Local Open Scope string_scope.

(** A value decoded by [json.loads]; an object is a [dict], given by its
    entries. *)
#[warnings="-register-all"] Inductive json : Type :=
| JNull
| JBool (b : bool)
| JNumber (n : Q)
| JString (s : string)
| JArray (items : list json)
| JObject (members : list (string * json)).

Fixpoint member (key : string) (members : list (string * json)) : option json :=
  match members with
  | [] => None
  | (k, v) :: members' => if String.eqb key k then Some v else member key members'
  end.

(** [d.get(key, default)]; [AttributeError] on anything but a [dict]. *)
Definition dict_get (d : json) (key : string) (default : json) : exn json :=
  match d with
  | JObject members =>
      Return (match member key members with
              | Some v => v
              | None => default
              end)
  | _ => Raise
  end.

(** [l[:stop]] on a list. *)
Definition slice_to {A : Type} (l : list A) (stop : Z) : list A :=
  if (stop <? 0)%Z
  then List.firstn (Z.to_nat (Z.of_nat (List.length l) + stop)) l
  else List.firstn (Z.to_nat stop) l.

(** The dictionary built on lines 35-44. *)
Record Product : Type := mkProduct {
  id : json;
  name : json;
  slug : json;
  price : json;
  regular_price : json;
  image : json;
  description : json;
  url : string
}.

(** [isinstance(v, dict)] *)
Definition is_dict (v : json) : bool :=
  match v with
  | JObject _ => true
  | _ => false
  end.

(** The decoded [__NEXT_DATA__] that holds [product_list] at
    [props.pageProps.product_list]. *)
Definition next_data (product_list : json) : json :=
  JObject [ ("props", JObject [ ("pageProps",
                                 JObject [ ("product_list", product_list) ]) ]) ].

(** The decoded data has the list [product_list] at
    [props.pageProps.product_list], among whatever else it holds. *)
Definition holds_product_list (data product_list : json) : Prop :=
  exists props page_props members : list (string * json),
    data = JObject members /\
    member "props" members = Some (JObject props) /\
    member "pageProps" props = Some (JObject page_props) /\
    member "product_list" page_props = Some product_list.

(** A product of the shop, as the page gives it. *)
Definition bike (slug : string) (price : Q) : list (string * json) :=
  [ ("id", JNumber 7); ("name", JString "E-bike"); ("slug", JString slug);
    ("price", JNumber price) ].

Section Scraper.

(** What an f-string writes for a number, a list or a [dict]. *)
Variable repr : json -> string.

(** [f"{v}"] *)
Definition format_value (v : json) : string :=
  match v with
  | JString s => s
  | JNull => "None"
  | JBool true => "True"
  | JBool false => "False"
  | other => repr other
  end.

(** [p_item.get(key)] on a [dict]: [None] for a missing key. *)
Definition field (key : string) (members : list (string * json)) : json :=
  match member key members with
  | Some v => v
  | None => JNull
  end.

Definition make_product (members : list (string * json)) : Product :=
  {| id := field "id" members;
     name := field "name" members;
     slug := field "slug" members;
     price := field "price" members;
     regular_price := field "regular_price" members;
     image := field "featured_image" members;
     description := field "description" members;
     url := "https://electricbikecompany.com/shop/products/"
            ++ format_value (field "slug" members) |}.

(** The loop of lines 34-45 on the items of a list; an item that is not a
    [dict] raises [AttributeError], which line 51 catches, and the products
    appended so far are what the function returns. *)
Fixpoint build (items : list json) (products : list Product) : list Product :=
  match items with
  | [] => products
  | JObject members :: rest => build rest (products ++ [make_product members])%list
  | _ :: _ => products
  end.

(** Lines 31-45 on the decoded data.  Only a list reaches the loop with
    something to append: [len] raises on [None], numbers and booleans, the
    slice raises on a [dict], and the characters of a string have no [get]. *)
Definition extract (data : json) (max_products : Z) : list Product :=
  match (do props <- dict_get data "props" (JObject []);
         do page_props <- dict_get props "pageProps" (JObject []);
         dict_get page_props "product_list" (JArray [])) with
  | Return (JArray product_list) => build (slice_to product_list max_products) []
  | _ => []
  end.

(** [DynamicScraper.scrape_dynamic(url, max_products)], where [loaded] is
    the outcome of lines 23-29. *)
Definition scrape_dynamic (loaded : exn json) (max_products : Z) : list Product :=
  match loaded with
  | Return data => extract data max_products
  | Raise => []
  end.

End Scraper.

End dynamic_scraper.

(** ** Notions used to state properties of the throttle *)

Module throttle.

Import anti_bot.

Local Open Scope Q_scope.

(** [1.5 ** n] *)
Fixpoint growth (n : nat) : Q :=
  match n with
  | O => 1
  | S n' => 1.5 * growth n'
  end.

(** The clock reading of a call of [backoff] is at least 60 units after
    [start]. *)
Definition past_window (start : Q) (c : call) : Prop :=
  match c with
  | Sync _ _ t1 _ => start + 60 <= t1
  | Async _ _ => True
  end.

(** Three failures in a row, by either variant. *)
Definition three_failures : list call :=
  [ Sync true 0 1 1; Async true (1 # 2); Sync true 1 2 2 ].

(** Two calls of [backoff] more than a minute after the object was made. *)
Definition late_calls : list call :=
  [ Sync false 0 61 61; Async true 0; Sync true 0 75 75 ].

End throttle.

(** * Properties of [anti_bot.py] *)

Module anti_bot_facts.

Import PyStr anti_bot.

Local Open Scope Q_scope.

Lemma Qltb_true (x y : Q) : Qltb x y = true <-> x < y.
Proof.
  unfold Qltb. rewrite negb_true_iff, <- not_true_iff_false, Qle_bool_iff.
  split; [apply Qnot_le_lt | apply Qlt_not_le].
Qed.

Lemma init_within_bounds (now : Q) : within_bounds (init now).
Proof. unfold within_bounds, init; simpl. repeat split; lra. Qed.

Lemma escalate_factor (increase : bool) (u : Q) (ab : AntiBot) :
  within_bounds ab ->
  within_bounds (snd (escalate increase u ab)) /\
  if increase
  then backoff_factor ab <= backoff_factor (snd (escalate increase u ab))
  else backoff_factor (snd (escalate increase u ab)) = 1.
Proof.
  intros (Hlo & Hhi & Hmax). unfold within_bounds, escalate.
  destruct increase; simpl.
  - rewrite Hmax.
    destruct (Q.min_spec (backoff_factor ab * 1.5) 30) as [[Hlt Heq] | [Hle Heq]];
      rewrite Heq; repeat split; lra.
  - repeat split; try lra. exact Hmax.
Qed.

Lemma backoff_keeps_factor (increase : bool) (u t1 t2 : Q) (ab : AntiBot) :
  backoff_factor (snd (backoff increase u t1 t2 ab))
  = backoff_factor (snd (escalate increase u ab)) /\
  max_backoff (snd (backoff increase u t1 t2 ab))
  = max_backoff (snd (escalate increase u ab)).
Proof.
  unfold backoff. destruct (escalate increase u ab) as [sleep_time ab1]; simpl.
  destruct (Qltb (t1 - start_time ab1) 60 && (10 <? request_count ab1 + 1)%Z);
    simpl; split; reflexivity.
Qed.

Lemma step_factor (c : call) (ab : AntiBot) :
  within_bounds ab ->
  within_bounds (snd (step ab c)) /\
  if increase_of c
  then backoff_factor ab <= backoff_factor (snd (step ab c))
  else backoff_factor (snd (step ab c)) = 1.
Proof.
  intros Hab. destruct c as [increase u t1 t2 | increase u]; simpl.
  - destruct (backoff_keeps_factor increase u t1 t2 ab) as [Hf Hm].
    destruct (escalate_factor increase u ab Hab) as [(Hlo & Hhi & Hmax) Hmono].
    unfold within_bounds. rewrite Hf, Hm. auto.
  - unfold async_backoff. apply escalate_factor, Hab.
Qed.

Lemma run_within_bounds (cs : list call) (ab : AntiBot) :
  within_bounds ab -> within_bounds (run cs ab).
Proof.
  revert ab. induction cs as [| c cs IH]; intros ab Hab; simpl.
  - exact Hab.
  - apply IH. apply step_factor, Hab.
Qed.

Ltac pick_level :=
  first [ left; lra | right; pick_level ].

Lemma escalate_levels (increase : bool) (u : Q) (ab : AntiBot) :
  max_backoff ab = 30 ->
  Exists (Qeq (backoff_factor ab)) factor_levels ->
  Exists (Qeq (backoff_factor (snd (escalate increase u ab)))) factor_levels.
Proof.
  intros Hmax Hlevel. unfold factor_levels in *.
  rewrite !Exists_cons, Exists_nil in *.
  destruct increase; simpl.
  - rewrite Hmax.
    destruct (Q.min_spec (backoff_factor ab * 1.5) 30) as [[Hcmp Heq] | [Hcmp Heq]];
      decompose [or] Hlevel; try contradiction; pick_level.
  - left. reflexivity.
Qed.

(** Every factor reached from a fresh object is one of the ten levels. *)
Lemma run_levels (cs : list call) (ab : AntiBot) :
  within_bounds ab ->
  Exists (Qeq (backoff_factor ab)) factor_levels ->
  Exists (Qeq (backoff_factor (run cs ab))) factor_levels.
Proof.
  revert ab. induction cs as [| c cs IH]; intros ab Hab Hlevel; [exact Hlevel |].
  change (run (c :: cs) ab) with (run cs (snd (step ab c))).
  apply IH; [apply step_factor, Hab |].
  destruct Hab as (_ & _ & Hmax).
  destruct c as [increase u t1 t2 | increase u]; simpl.
  - rewrite (proj1 (backoff_keeps_factor increase u t1 t2 ab)).
    apply escalate_levels; assumption.
  - apply escalate_levels; assumption.
Qed.

(** C1.  After any sequence of calls of [backoff] and [async_backoff] on the
    object created by [AntiBot()], one more call leaves [backoff_factor] at
    most equal to [max_backoff], which is still [30]; a failure call
    ([increase=True]) does not decrease it, and a success call leaves it
    equal to [1]. *)
Theorem backoff_factor_monotone_bounded_reset (now : Q) (cs : list call) (c : call) :
  let before := run cs (init now) in
  let after := snd (step before c) in
  backoff_factor after <= max_backoff after /\
  max_backoff after = 30 /\
  if increase_of c
  then backoff_factor before <= backoff_factor after
  else backoff_factor after = 1.
Proof.
  intros before after.
  assert (Hb : within_bounds before)
    by apply run_within_bounds, init_within_bounds.
  destruct (step_factor c before Hb) as [(Hlo & Hhi & Hmax) Hc].
  fold after in Hlo, Hhi, Hmax, Hc.
  split; [rewrite Hmax; exact Hhi | split; [exact Hmax | exact Hc]].
Qed.

Lemma escalate_keeps_window (increase : bool) (u : Q) (ab : AntiBot) :
  request_count (snd (escalate increase u ab)) = request_count ab /\
  start_time (snd (escalate increase u ab)) = start_time ab.
Proof. destruct increase; split; reflexivity. Qed.

Lemma backoff_window_full (increase : bool) (u t1 t2 : Q) (ab : AntiBot) :
  t1 - start_time ab < 60 -> (10 < request_count ab + 1)%Z ->
  fst (backoff increase u t1 t2 ab)
  = fst (escalate increase u ab) + (60 - (t1 - start_time ab)) /\
  request_count (snd (backoff increase u t1 t2 ab)) = 0%Z /\
  start_time (snd (backoff increase u t1 t2 ab)) = t2.
Proof.
  intros Helapsed Hcount. unfold backoff.
  destruct (escalate_keeps_window increase u ab) as [Hrc Hst].
  destruct (escalate increase u ab) as [sleep_time ab1]; simpl in *.
  rewrite Hrc, Hst.
  apply Qltb_true in Helapsed. apply Z.ltb_lt in Hcount.
  rewrite Helapsed, Hcount; simpl. repeat split.
Qed.

Lemma backoff_window_open (increase : bool) (u t1 t2 : Q) (ab : AntiBot) :
  (request_count ab + 1 <= 10)%Z ->
  request_count (snd (backoff increase u t1 t2 ab)) = (request_count ab + 1)%Z /\
  start_time (snd (backoff increase u t1 t2 ab)) = start_time ab.
Proof.
  intros Hcount. unfold backoff.
  destruct (escalate_keeps_window increase u ab) as [Hrc Hst].
  destruct (escalate increase u ab) as [sleep_time ab1]; simpl in *.
  rewrite Hrc, Hst.
  replace (10 <? request_count ab + 1)%Z with false
    by (symmetry; apply Z.ltb_ge; exact Hcount).
  rewrite andb_false_r; simpl. split; reflexivity.
Qed.

Lemma sync_calls_cons (c : call) (cs : list call) :
  sync_calls (c :: cs)
  = (match c with Sync _ _ _ _ => 1 | Async _ _ => 0 end + sync_calls cs)%Z.
Proof. unfold sync_calls. destruct c; simpl List.length; lia. Qed.

Lemma sync_calls_nonneg (cs : list call) : (0 <= sync_calls cs)%Z.
Proof. unfold sync_calls. lia. Qed.

(** Up to ten tallied requests the window is never reset. *)
Lemma run_counts_requests (cs : list call) (ab : AntiBot) :
  (request_count ab + sync_calls cs <= 10)%Z ->
  request_count (run cs ab) = (request_count ab + sync_calls cs)%Z /\
  start_time (run cs ab) = start_time ab.
Proof.
  revert ab. induction cs as [| c cs IH]; intros ab Hle.
  - simpl. unfold sync_calls; simpl. split; [lia | reflexivity].
  - rewrite sync_calls_cons in *. pose proof (sync_calls_nonneg cs) as Hnn.
    change (run (c :: cs) ab) with (run cs (snd (step ab c))).
    destruct c as [increase u t1 t2 | increase u].
    + destruct (backoff_window_open increase u t1 t2 ab) as [Hrc Hst]; [lia |].
      simpl step. destruct (IH (snd (backoff increase u t1 t2 ab))) as [Hrc' Hst'].
      * rewrite Hrc. lia.
      * rewrite Hrc', Hst', Hrc, Hst. split; [lia | reflexivity].
    + destruct (escalate_keeps_window increase u ab) as [Hrc Hst].
      simpl step. unfold async_backoff.
      destruct (IH (snd (escalate increase u ab))) as [Hrc' Hst'].
      * rewrite Hrc. lia.
      * rewrite Hrc', Hst', Hrc, Hst. split; [lia | reflexivity].
Qed.

(** C3.  When a call of [backoff] finds, after its increment of
    [request_count], less than 60 units elapsed since [start_time] and more
    than 10 requests tallied, the duration it sleeps is the drawn delay plus
    [60 - elapsed], [request_count] is left at 0 and [start_time] at the
    second clock reading.  That is the case of the eleventh call of
    [backoff] on a fresh object when its clock reading is within 60 units of
    the creation of the object. *)
Theorem rolling_window_penalty :
  (forall (increase : bool) (u t1 t2 : Q) (ab : AntiBot),
      t1 - start_time ab < 60 -> (10 < request_count ab + 1)%Z ->
      fst (backoff increase u t1 t2 ab)
      = fst (escalate increase u ab) + (60 - (t1 - start_time ab)) /\
      request_count (snd (backoff increase u t1 t2 ab)) = 0%Z /\
      start_time (snd (backoff increase u t1 t2 ab)) = t2) /\
  (forall (now : Q) (cs : list call) (increase : bool) (u t1 t2 : Q),
      sync_calls cs = 10%Z -> t1 - now < 60 ->
      let ab := run cs (init now) in
      fst (backoff increase u t1 t2 ab)
      = fst (escalate increase u ab) + (60 - (t1 - now)) /\
      request_count (snd (backoff increase u t1 t2 ab)) = 0%Z /\
      start_time (snd (backoff increase u t1 t2 ab)) = t2).
Proof.
  split.
  - exact backoff_window_full.
  - intros now cs increase u t1 t2 Hten Hwin ab.
    destruct (run_counts_requests cs (init now)) as [Hrc Hst];
      [simpl; lia |].
    fold ab in Hrc, Hst. simpl in Hrc, Hst.
    replace now with (start_time ab) at 1 by exact Hst.
    apply backoff_window_full; [rewrite Hst; exact Hwin | rewrite Hrc; lia].
Qed.

Lemma rolling_window_penalty_witness :
  (fst (backoff true 0 30 31 samples.ten_tallied)
   = fst (escalate true 0 samples.ten_tallied) + (60 - (30 - 0)) /\
   request_count (snd (backoff true 0 30 31 samples.ten_tallied)) = 0%Z /\
   start_time (snd (backoff true 0 30 31 samples.ten_tallied)) = 31) /\
  (fst (backoff true 0 30 31 (run samples.ten_requests (init 0)))
   = fst (escalate true 0 (run samples.ten_requests (init 0))) + (60 - (30 - 0)) /\
   request_count (snd (backoff true 0 30 31 (run samples.ten_requests (init 0)))) = 0%Z /\
   start_time (snd (backoff true 0 30 31 (run samples.ten_requests (init 0)))) = 31).
Proof.
  split.
  - apply (proj1 rolling_window_penalty true 0 30 31 samples.ten_tallied).
    + reflexivity.
    + reflexivity.
  - apply (proj2 rolling_window_penalty 0 samples.ten_requests true 0 30 31).
    + reflexivity.
    + reflexivity.
Defined.

(** Both variants apply the same update to [backoff_factor] and draw the
    same delay. *)
Lemma variants_agree_on_factor (increase : bool) (u t1 t2 : Q) (ab : AntiBot) :
  backoff_factor (snd (backoff increase u t1 t2 ab))
  = backoff_factor (snd (async_backoff increase u ab)) /\
  fst (async_backoff increase u ab) = fst (escalate increase u ab).
Proof.
  split; [apply backoff_keeps_factor | reflexivity].
Qed.

(** C2.  On a fresh object a call of [backoff] leaves [request_count] at 1
    where the same call of [async_backoff] leaves it at 0; and on an object
    with ten requests tallied, 30 units into the window, [backoff] sleeps 30
    units longer than [async_backoff] for the same draw and resets the
    window, which [async_backoff] leaves untouched. *)
Theorem async_backoff_skips_request_tally :
  request_count (snd (backoff false 0 1 1 (init 0))) = 1%Z /\
  request_count (snd (async_backoff false 0 (init 0))) = 0%Z /\
  fst (backoff false 0 30 31 samples.ten_tallied) == 31 /\
  fst (async_backoff false 0 samples.ten_tallied) == 1 /\
  request_count (snd (backoff false 0 30 31 samples.ten_tallied)) = 0%Z /\
  request_count (snd (async_backoff false 0 samples.ten_tallied)) = 10%Z /\
  start_time (snd (backoff false 0 30 31 samples.ten_tallied)) = 31 /\
  start_time (snd (async_backoff false 0 samples.ten_tallied)) = 0.
Proof. repeat split. Qed.

(** *** Detection *)

Local Open Scope string_scope.

Lemma startswith_spec (p s : string) :
  startswith p s = true <-> exists after : string, s = p ++ after.
Proof.
  revert s. induction p as [| a p IH]; intros s; simpl.
  - split; [intros _; exists s; reflexivity | reflexivity].
  - destruct s as [| b s].
    + split; [discriminate | intros [after H]; discriminate].
    + rewrite andb_true_iff, Ascii.eqb_eq, IH. split.
      * intros [-> [after ->]]. exists after. reflexivity.
      * intros [after H]. injection H as -> H. split; [reflexivity |].
        exists after. exact H.
Qed.

Lemma contains_spec (needle hay : string) :
  contains needle hay = true <-> occurs_in needle hay.
Proof.
  induction hay as [| c hay IH].
  - simpl. rewrite orb_false_r, startswith_spec. split.
    + intros [after H]. exists "", after. exact H.
    + intros ([| b before] & after & H).
      * exists after. exact H.
      * discriminate.
  - change (contains needle (String c hay))
      with (startswith needle (String c hay) || contains needle hay).
    rewrite orb_true_iff, startswith_spec, IH. split.
    + intros [[after H] | (before & after & H)].
      * exists "", after. exact H.
      * exists (String c before), after. rewrite H. reflexivity.
    + intros ([| b before] & after & H).
      * left. exists after. exact H.
      * right. injection H as _ H. exists before, after. exact H.
Qed.

Lemma any_indicator (indicators : list string) (text : string) :
  existsb (fun indicator => contains indicator text) indicators = true <->
  exists indicator : string, In indicator indicators /\ occurs_in indicator text.
Proof.
  rewrite existsb_exists. split; intros (k & Hin & H); exists k; split;
    try exact Hin; apply contains_spec; exact H.
Qed.

(** C9.  [detect_captcha] holds exactly when the lower-cased body contains
    a challenge keyword, and [detect_rate_limit] exactly when the status is
    429 or the lower-cased body contains a rate-limit keyword; both depend
    on the body through its lower-cased form only.  "Please Verify you are
    human" is a challenge; "Status 429, Too Many Requests" is rate-limited
    by its text alone, and any body is with status 429. *)
Theorem detection_heuristics (body : string) (status_code : Z) :
  (detect_captcha body = true <->
   exists k : string, In k captcha_indicators /\ occurs_in k (lower body)) /\
  (detect_rate_limit body status_code = true <->
   status_code = 429%Z \/
   exists k : string, In k rate_limit_indicators /\ occurs_in k (lower body)) /\
  (forall body' : string,
      lower body' = lower body ->
      detect_captcha body' = detect_captcha body /\
      detect_rate_limit body' status_code = detect_rate_limit body status_code) /\
  detect_captcha "Please Verify you are human" = true /\
  detect_rate_limit "Status 429, Too Many Requests" 200 = true /\
  detect_rate_limit body 429 = true.
Proof.
  split; [| split; [| split; [| repeat split]]].
  - unfold detect_captcha. apply any_indicator.
  - unfold detect_rate_limit. destruct (Z.eqb_spec status_code 429) as [-> | Hne].
    + split; [intros _; left; reflexivity | reflexivity].
    + rewrite any_indicator. split; [intros H; right; exact H |].
      intros [H | H]; [contradiction | exact H].
  - intros body' Hlow. unfold detect_captcha, detect_rate_limit.
    rewrite Hlow. split; reflexivity.
Qed.

End anti_bot_facts.

(** * Properties of [int] on decimal digits *)

Module pystr_facts.

Import PyStr.

Local Open Scope string_scope.

Lemma in_ranges_members (ranges : list (N * N)) (cp : N) :
  in_ranges ranges cp = true -> In cp (range_members ranges).
Proof.
  unfold in_ranges, range_members. rewrite existsb_exists, in_flat_map.
  intros ([a b] & Hin & Hcp). exists (a, b). split; [exact Hin |].
  simpl in *. apply andb_true_iff in Hcp as [Ha Hb].
  apply N.leb_le in Ha, Hb.
  rewrite in_map_iff. exists (N.to_nat cp). split; [apply N2Nat.id |].
  apply in_seq. lia.
Qed.

Lemma existsb_find {A : Type} (f : A -> bool) (l : list A) :
  existsb f l = true -> exists x : A, List.find f l = Some x.
Proof.
  induction l as [| y l IH]; simpl; [discriminate |].
  destruct (f y); [intros _; exists y; reflexivity | exact IH].
Qed.

Lemma decimal_has_value (cp : N) :
  is_decimal cp = true -> exists d : Z, decimal_value cp = Some d /\ (0 <= d)%Z.
Proof.
  unfold is_decimal, in_ranges, decimal_value. intros H.
  destruct (existsb_find _ _ H) as [r ->].
  exists (Z.of_N (cp - fst r)). split; [reflexivity | lia].
Qed.

Lemma space_is_not_decimal :
  forallb (fun cp => negb (is_decimal cp)) (range_members int_space_ranges) = true.
Proof. vm_compute. reflexivity. Qed.

Lemma decimal_is_not_space (cp : N) :
  is_decimal cp = true -> int_space cp = false.
Proof.
  intros Hdec. destruct (int_space cp) eqn:Hspace; [| reflexivity].
  apply in_ranges_members in Hspace.
  pose proof space_is_not_decimal as Hall. rewrite forallb_forall in Hall.
  specialize (Hall cp Hspace). rewrite Hdec in Hall. discriminate.
Qed.

Lemma decimal_is_not_sign (cp : N) :
  is_decimal cp = true -> (cp =? 45)%N = false /\ (cp =? 43)%N = false.
Proof.
  intros Hdec. split; apply N.eqb_neq; intros ->; vm_compute in Hdec; discriminate.
Qed.

Lemma skip_space_decimals (cps : list N) :
  Forall (fun cp => is_decimal cp = true) cps -> skip_space cps = cps.
Proof.
  intros Hall. destruct Hall as [| cp cps Hcp Hrest]; [reflexivity |].
  simpl. rewrite (decimal_is_not_space cp Hcp). reflexivity.
Qed.

Lemma trim_space_decimals (cps : list N) :
  Forall (fun cp => is_decimal cp = true) cps -> trim_space cps = cps.
Proof.
  intros Hall. unfold trim_space. rewrite (skip_space_decimals cps Hall).
  rewrite skip_space_decimals; [apply List.rev_involutive |].
  apply Forall_rev, Hall.
Qed.

Lemma int_body_decimals (cps : list N) (acc : Z) (prev : bool) :
  Forall (fun cp => is_decimal cp = true) cps ->
  prev = true \/ cps <> [] -> (0 <= acc)%Z ->
  exists n : Z, int_body acc prev cps = Some n /\ (0 <= n)%Z.
Proof.
  intros Hall. revert acc prev.
  induction Hall as [| cp cps Hcp Hrest IH]; intros acc prev Hne Hacc; simpl.
  - destruct Hne as [-> | Hne]; [exists acc; split; [reflexivity | exact Hacc] |].
    contradiction.
  - destruct (decimal_has_value cp Hcp) as (d & -> & Hd).
    apply IH; [left; reflexivity | lia].
Qed.

Lemma code_points_nil (s : string) : code_points s = Some [] -> s = "".
Proof.
  destruct s as [| b0 r0]; [reflexivity |]. cbn [code_points]. intros H. exfalso.
  repeat (match type of H with
          | context [match ?x with _ => _ end] => destruct x
          end; cbn [option_map] in H; try discriminate);
    match type of H with
    | option_map _ ?x = _ => destruct x; cbn [option_map] in H; discriminate
    end.
Qed.

(** On a non-empty string of decimal digits, [int] does not raise and its
    value is not negative. *)
Lemma py_int_decimal_text (s : string) :
  truthy s = true -> decimal_text s ->
  exists n : Z, py_int s = Some n /\ (0 <= n)%Z.
Proof.
  intros Hne (cps & Hcode & Hall).
  unfold py_int, int_of_code_points. rewrite Hcode, (trim_space_decimals _ Hall).
  destruct cps as [| cp cps].
  - apply code_points_nil in Hcode. subst. discriminate.
  - inversion Hall as [| cp' cps' Hcp Hrest]; subst.
    destruct (decimal_is_not_sign cp Hcp) as [-> ->].
    apply int_body_decimals; [exact Hall | right; discriminate | lia].
Qed.

End pystr_facts.

(** * Properties of the regular expressions *)

Module re_facts.

Import PyStr re.

Local Open Scope string_scope.

Lemma drop_prefix_spec (p s rest : string) :
  drop_prefix p s = Some rest -> s = p ++ rest.
Proof.
  revert s. induction p as [| a p IH]; intros s; simpl.
  - intros H. injection H as ->. reflexivity.
  - destruct s as [| b s]; [discriminate |].
    destruct (Ascii.eqb_spec a b) as [-> | _]; [| discriminate].
    intros H. rewrite (IH s H). reflexivity.
Qed.

(** The separators that a specification accepts. *)
Lemma eat_sep_spec (sp : sep_spec) (s rest : string) :
  eat_sep sp s = Some rest ->
  exists sep : string, s = sep ++ rest /\ sep_ok sp sep = true.
Proof.
  destruct sp as [| cs | cs]; simpl.
  - intros H. injection H as ->. exists "". split; reflexivity.
  - destruct s as [| c s]; [discriminate |].
    destruct (in_class cs c) eqn:Hc; [| discriminate].
    intros H. injection H as ->. exists (String c "").
    split; [reflexivity | simpl; exact Hc].
  - destruct s as [| c s].
    + intros H. injection H as <-. exists "". split; reflexivity.
    + destruct (in_class cs c) eqn:Hc; intros H; injection H as <-.
      * exists (String c ""). split; [reflexivity | simpl; exact Hc].
      * exists "". split; reflexivity.
Qed.

Ltac span_stops :=
  let H := fresh "H" in
  intros H; injection H as <- <-;
  split; [reflexivity | exists []; split; [reflexivity | constructor]].

Lemma span_digits_bounded (n : nat) (s ds rest : string) :
  (String.length s <= n)%nat ->
  span_digits s = (ds, rest) -> s = ds ++ rest /\ decimal_text ds.
Proof.
  revert s ds rest.
  induction n as [| n IH]; intros s ds rest Hlen; destruct s as [| b0 r0];
    try (simpl in Hlen; lia); try (cbn [span_digits]; span_stops).
  assert (Hgo : forall (r ds' rest' : string),
             (String.length r <= n)%nat -> span_digits r = (ds', rest') ->
             r = ds' ++ rest' /\ decimal_text ds')
    by (intros r ds' rest' Hr; apply IH, Hr).
  cbn [span_digits]. cbv zeta.
  destruct (byte b0 <? 128)%N eqn:H128.
  { destruct (is_decimal (byte b0)) eqn:Hdec; [| span_stops].
    destruct (span_digits r0) as [ds' rest'] eqn:Hspan.
    intros H. injection H as <- <-.
    destruct (Hgo r0 ds' rest' ltac:(simpl in Hlen; lia) Hspan)
      as [-> (cps & Hcode & Hall)].
    split; [reflexivity |]. exists (byte b0 :: cps).
    split; [| constructor; assumption].
    cbn [code_points]. cbv zeta. rewrite H128, Hcode. reflexivity. }
  destruct (byte b0 <? 192)%N eqn:H192; [span_stops |].
  destruct (byte b0 <? 224)%N eqn:H224.
  { destruct r0 as [| b1 r1]; [span_stops |].
    destruct (continuation b1) as [c1 |] eqn:Hc1; [| span_stops].
    destruct (scalar 128 ((byte b0 - 192) * 64 + c1)) as [cp |] eqn:Hcp;
      [| span_stops].
    destruct (is_decimal cp) eqn:Hdec; [| span_stops].
    destruct (span_digits r1) as [ds' rest'] eqn:Hspan.
    intros H. injection H as <- <-.
    destruct (Hgo r1 ds' rest' ltac:(simpl in Hlen; lia) Hspan)
      as [-> (cps & Hcode & Hall)].
    split; [reflexivity |]. exists (cp :: cps).
    split; [| constructor; assumption].
    cbn [code_points]. cbv zeta. rewrite H128, H192, H224, Hc1, Hcode, Hcp.
    reflexivity. }
  destruct (byte b0 <? 240)%N eqn:H240.
  { destruct r0 as [| b1 [| b2 r2]]; try span_stops.
    destruct (continuation b1) as [c1 |] eqn:Hc1; [| span_stops].
    destruct (continuation b2) as [c2 |] eqn:Hc2; [| span_stops].
    destruct (scalar 2048 ((byte b0 - 224) * 4096 + c1 * 64 + c2)) as [cp |] eqn:Hcp;
      [| span_stops].
    destruct (is_decimal cp) eqn:Hdec; [| span_stops].
    destruct (span_digits r2) as [ds' rest'] eqn:Hspan.
    intros H. injection H as <- <-.
    destruct (Hgo r2 ds' rest' ltac:(simpl in Hlen; lia) Hspan)
      as [-> (cps & Hcode & Hall)].
    split; [reflexivity |]. exists (cp :: cps).
    split; [| constructor; assumption].
    cbn [code_points]. cbv zeta.
    rewrite H128, H192, H224, H240, Hc1, Hc2, Hcode, Hcp. reflexivity. }
  destruct (byte b0 <? 248)%N eqn:H248; [| span_stops].
  destruct r0 as [| b1 [| b2 [| b3 r3]]]; try span_stops.
  destruct (continuation b1) as [c1 |] eqn:Hc1; [| span_stops].
  destruct (continuation b2) as [c2 |] eqn:Hc2; [| span_stops].
  destruct (continuation b3) as [c3 |] eqn:Hc3; [| span_stops].
  destruct (scalar 65536 ((byte b0 - 240) * 262144 + c1 * 4096 + c2 * 64 + c3))
    as [cp |] eqn:Hcp; [| span_stops].
  destruct (is_decimal cp) eqn:Hdec; [| span_stops].
  destruct (span_digits r3) as [ds' rest'] eqn:Hspan.
  intros H. injection H as <- <-.
  destruct (Hgo r3 ds' rest' ltac:(simpl in Hlen; lia) Hspan)
    as [-> (cps & Hcode & Hall)].
  split; [reflexivity |]. exists (cp :: cps).
  split; [| constructor; assumption].
  cbn [code_points]. cbv zeta.
  rewrite H128, H192, H224, H240, H248, Hc1, Hc2, Hc3, Hcode, Hcp. reflexivity.
Qed.

Lemma span_digits_spec (s ds rest : string) :
  span_digits s = (ds, rest) -> s = ds ++ rest /\ decimal_text ds.
Proof. apply (span_digits_bounded (String.length s)). lia. Qed.

(** What a match at the head of a string consists of. *)
Lemma match_at_spec (p : pattern) (s ds rest : string) :
  match_at p s = Some (ds, rest) ->
  exists sep : string,
    s = lit_before p ++ sep ++ ds ++ lit_after p ++ rest /\
    sep_ok (separator p) sep = true /\ truthy ds = true /\ decimal_text ds.
Proof.
  unfold match_at.
  destruct (drop_prefix (lit_before p) s) as [s1 |] eqn:H1; [| discriminate].
  destruct (eat_sep (separator p) s1) as [s2 |] eqn:H2; [| discriminate].
  destruct (span_digits s2) as [ds' s3] eqn:H3.
  destruct (truthy ds') eqn:Hne; [| discriminate].
  destruct (drop_prefix (lit_after p) s3) as [rest' |] eqn:H4; [| discriminate].
  intros H. injection H as <- <-.
  apply drop_prefix_spec in H1, H4.
  apply eat_sep_spec in H2 as (sep & H2 & Hsep).
  apply span_digits_spec in H3 as [H3 Hds].
  exists sep. subst. split; [reflexivity | split; [exact Hsep |]].
  split; [exact Hne | exact Hds].
Qed.

(** What [search] finds is a match, after the text that it skipped. *)
Lemma search_spec (p : pattern) (s before ds rest : string) :
  search p s = Some (before, ds, rest) ->
  exists sep : string,
    s = before ++ lit_before p ++ sep ++ ds ++ lit_after p ++ rest /\
    sep_ok (separator p) sep = true /\ truthy ds = true /\ decimal_text ds.
Proof.
  revert before. induction s as [| c s IH]; intros before; simpl.
  - destruct (match_at p "") as [[ds' rest'] |] eqn:Hm; [| discriminate].
    intros H. injection H as <- <- <-. apply match_at_spec, Hm.
  - destruct (match_at p (String c s)) as [[ds' rest'] |] eqn:Hm.
    + intros H. injection H as <- <- <-. apply match_at_spec, Hm.
    + destruct (search p s) as [[[before' ds'] rest'] |]; [| discriminate].
      intros H. injection H as <- <- <-.
      destruct (IH before' eq_refl) as (sep & -> & Hsep & Hds).
      exists sep. split; [reflexivity | split; assumption].
Qed.

Lemma search_none_head (p : pattern) (s : string) :
  search p s = None -> match_at p s = None.
Proof.
  destruct s as [| c s]; simpl;
    destruct (match_at p _) as [[ds rest] |]; congruence.
Qed.

Lemma search_none_tail (p : pattern) (c : ascii) (s : string) :
  search p (String c s) = None -> search p s = None.
Proof.
  simpl. destruct (match_at p (String c s)) as [[ds rest] |]; [discriminate |].
  destruct (search p s) as [[[before ds] rest] |]; [discriminate | reflexivity].
Qed.

(** Without a match [re.sub] returns its argument. *)
Lemma sub_fuel_no_match (p : pattern) (repl : string) (fuel : nat) (s : string) :
  search p s = None -> sub_fuel fuel p repl s = s.
Proof.
  revert s. induction fuel as [| fuel IH]; intros s Hnone; simpl; [reflexivity |].
  rewrite (search_none_head p s Hnone).
  destruct s as [| c s]; [reflexivity |].
  rewrite (IH s (search_none_tail p c s Hnone)). reflexivity.
Qed.

Lemma sub_fuel_first_match (p : pattern) (repl : string) (s before ds rest : string)
  (fuel : nat) :
  search p s = Some (before, ds, rest) ->
  (String.length before < fuel)%nat ->
  sub_fuel fuel p repl s
  = before ++ repl ++ sub_fuel (fuel - String.length before - 1) p repl rest.
Proof.
  revert before fuel. induction s as [| c s IH]; intros before fuel; simpl.
  - destruct (match_at p "") as [[ds' rest'] |] eqn:Hm; [| discriminate].
    intros H Hfuel. injection H as <- <- <-.
    destruct fuel as [| fuel]; [simpl in Hfuel; lia |].
    simpl. rewrite Hm, Nat.sub_0_r. reflexivity.
  - destruct (match_at p (String c s)) as [[ds' rest'] |] eqn:Hm.
    + intros H Hfuel. injection H as <- <- <-.
      destruct fuel as [| fuel]; [simpl in Hfuel; lia |].
      simpl. rewrite Hm, Nat.sub_0_r. reflexivity.
    + destruct (search p s) as [[[before' ds'] rest'] |] eqn:Hs; [| discriminate].
      intros H Hfuel. injection H as <- <- <-.
      destruct fuel as [| fuel]; [simpl in Hfuel; lia |].
      simpl in Hfuel. simpl. rewrite Hm.
      rewrite (IH before' fuel eq_refl) by lia. reflexivity.
Qed.

Lemma search_before_length (p : pattern) (s before ds rest : string) :
  search p s = Some (before, ds, rest) ->
  (String.length before <= String.length s)%nat.
Proof.
  revert before. induction s as [| c s IH]; intros before; simpl.
  - destruct (match_at p "") as [[ds' rest'] |]; [| discriminate].
    intros H. injection H as <- <- <-. simpl. lia.
  - destruct (match_at p (String c s)) as [[ds' rest'] |].
    + intros H. injection H as <- <- <-. simpl. lia.
    + destruct (search p s) as [[[before' ds'] rest'] |]; [| discriminate].
      intros H. injection H as <- <- <-. simpl.
      specialize (IH before' eq_refl). lia.
Qed.

(** [re.sub] on a string with one match. *)
Lemma sub_single_match (p : pattern) (repl s before ds rest : string) :
  search p s = Some (before, ds, rest) ->
  search p rest = None ->
  sub p repl s = before ++ repl ++ rest.
Proof.
  intros Hs Hrest. unfold sub.
  pose proof (search_before_length p s before ds rest Hs) as Hlen.
  rewrite (sub_fuel_first_match p repl s before ds rest _ Hs) by lia.
  rewrite (sub_fuel_no_match p repl _ rest Hrest). reflexivity.
Qed.

End re_facts.

(** * Properties of [pagination.py] *)

Module pagination_facts.

Import PyStr urllib pagination.

Local Open Scope string_scope.

Section Facts.

Context {lib : UrlLib}.

Lemma fresh_not_visited (current_url : string) (visited_urls : gset string)
  (next_url : option string) (full_url : string) :
  fresh current_url visited_urls next_url = Return (Some full_url) ->
  full_url ∉ visited_urls.
Proof.
  unfold fresh. destruct next_url as [u |]; [| discriminate].
  destruct (truthy u); [| discriminate].
  destruct (urljoin current_url u) as [full |]; simpl; [| discriminate].
  destruct (decide (full ∈ visited_urls)) as [Hin | Hnotin]; [discriminate |].
  intros H. injection H as <-. exact Hnotin.
Qed.

(** What a returning call did to the visited set. *)
Lemma get_next_page_returns (soup : Soup) (current_url : string)
  (visited_urls visited' : gset string) (r : option string) :
  get_next_page soup current_url visited_urls = Return (r, visited') ->
  match r with
  | Some full_url => (full_url ∉ visited_urls) /\ visited' = {[full_url]} ∪ visited_urls
  | None => visited' = visited_urls
  end.
Proof.
  unfold get_next_page.
  destruct (fresh current_url visited_urls (_find_next_button soup))
    as [[u1 |] |] eqn:H1; simpl; [| | discriminate].
  { intros H. injection H as <- <-. split; [| reflexivity].
    eapply fresh_not_visited, H1. }
  destruct (fresh current_url visited_urls (_find_numbered_next soup current_url))
    as [[u2 |] |] eqn:H2; simpl; [| | discriminate].
  { intros H. injection H as <- <-. split; [| reflexivity].
    eapply fresh_not_visited, H2. }
  destruct (fresh current_url visited_urls (_find_load_more soup))
    as [[u3 |] |] eqn:H3; simpl; [| | discriminate].
  { intros H. injection H as <- <-. split; [| reflexivity].
    eapply fresh_not_visited, H3. }
  destruct (fresh current_url visited_urls (_construct_next_page_url current_url))
    as [[u4 |] |] eqn:H4; simpl; [| | discriminate].
  { intros H. injection H as <- <-. split; [| reflexivity].
    eapply fresh_not_visited, H4. }
  intros H. injection H as <- <-. reflexivity.
Qed.

(** C4.  A URL returned by [get_next_page] was not in [visited_urls] and
    is in it once the call has returned; a call that returns [None] leaves
    the set as it was.  A second call on the same page, made on the set left
    by the first, returns a different URL or none. *)
Theorem get_next_page_never_revisits (soup : Soup) (current_url : string)
  (visited_urls : gset string) :
  match get_next_page soup current_url visited_urls with
  | Return (Some full_url, visited') =>
      (full_url ∉ visited_urls) /\
      visited' = {[full_url]} ∪ visited_urls /\
      (full_url ∈ visited') /\
      match get_next_page soup current_url visited' with
      | Return (Some again, _) => again <> full_url
      | Return (None, _) => True
      | Raise => True
      end
  | Return (None, visited') => visited' = visited_urls
  | Raise => True
  end.
Proof.
  destruct (get_next_page soup current_url visited_urls)
    as [[[full_url |] visited'] |] eqn:Hfirst; [| | exact I].
  - apply get_next_page_returns in Hfirst as [Hnew ->].
    split; [exact Hnew | split; [reflexivity | split; [set_solver |]]].
    destruct (get_next_page soup current_url ({[full_url]} ∪ visited_urls))
      as [[[again |] visited''] |] eqn:Hsecond; [| exact I | exact I].
    apply get_next_page_returns in Hsecond as [Hagain _].
    intros ->. apply Hagain. set_solver.
  - apply get_next_page_returns in Hfirst. exact Hfirst.
Qed.

(** *** The numbered-link strategy *)

Lemma find_app {A : Type} (f : A -> bool) (l1 l2 : list A) :
  List.find f (l1 ++ l2)%list
  = match List.find f l1 with
    | Some x => Some x
    | None => List.find f l2
    end.
Proof.
  induction l1 as [| x l1 IH]; simpl; [reflexivity |].
  destruct (f x); [reflexivity | exact IH].
Qed.

Lemma scan_links_wanted (current_page : Z) (page_links : list (string * string)) :
  current_page <> 0%Z ->
  Forall parseable page_links ->
  scan_links (Some current_page) page_links
  = Return (option_map fst (List.find (wanted current_page) page_links)).
Proof.
  intros Hpage Hall.
  induction Hall as [| [href link_text] rest Hlink Hrest IH]; [reflexivity |].
  cbn [scan_links List.find]. unfold wanted at 1. cbn [snd].
  unfold parseable in Hlink. cbn [snd] in Hlink.
  destruct (isdigit link_text).
  - destruct (py_int link_text) as [page_num |]; [| exfalso; apply Hlink; reflexivity].
    replace (negb (current_page =? 0)%Z) with true
      by (symmetry; apply negb_true_iff, Z.eqb_neq; exact Hpage).
    cbn [andb]. destruct (page_num =? current_page + 1)%Z; [reflexivity | exact IH].
  - destruct (in_list (lower link_text) next_words); [reflexivity | exact IH].
Qed.

Lemma scan_containers_wanted (soup : Soup) (current_page : Z)
  (selectors : list string) :
  current_page <> 0%Z ->
  Forall parseable (links_under soup selectors) ->
  scan_containers soup (Some current_page) selectors
  = Return (option_map fst
              (List.find (wanted current_page) (links_under soup selectors))).
Proof.
  intros Hpage.
  induction selectors as [| selector rest IH]; intros Hall; [reflexivity |].
  cbn [scan_containers links_under flat_map] in *.
  apply Forall_app in Hall as [Hhere Hrest].
  rewrite find_app.
  destruct (select_one soup selector) as [pagination |]; [| exact (IH Hrest)].
  rewrite (scan_links_wanted current_page _ Hpage Hhere). cbn [bind_exn].
  destruct (List.find (wanted current_page) (find_all_a_href pagination))
    as [[href text] |]; [reflexivity | exact (IH Hrest)].
Qed.

(** C5.  When the current page is known and is not 0, and [int] reads
    every link text that [isdigit] accepts, the numbered-link strategy
    returns the target of the first link, in document order through the
    pagination containers, whose text is either a number equal to the
    current page plus one or one of the words for "next"; it returns
    nothing when there is no such link. *)
Theorem numbered_next_first_in_document_order (soup : Soup) (current_url : string)
  (current_page : Z) :
  _extract_page_number current_url = Some current_page ->
  current_page <> 0%Z ->
  Forall parseable (page_links soup) ->
  _find_numbered_next soup current_url
  = option_map fst (List.find (wanted current_page) (page_links soup)).
Proof.
  intros Hextract Hpage Hall.
  unfold _find_numbered_next. rewrite Hextract.
  unfold page_links in *.
  rewrite (scan_containers_wanted soup current_page _ Hpage Hall).
  reflexivity.
Qed.

Lemma in_links_under (soup : Soup) (selectors : list string) (href text : string) :
  In (href, text) (links_under soup selectors) ->
  exists (selector : string) (container : Tag) (link : Anchor),
    In selector selectors /\ select_one soup selector = Some container /\
    In link (tag_anchors container) /\ a_href link = Some href /\ a_text link = text.
Proof.
  unfold links_under. rewrite in_flat_map. intros (selector & Hsel & Hin).
  destruct (select_one soup selector) as [container |] eqn:Hc; [| destruct Hin].
  unfold find_all_a_href in Hin. rewrite in_flat_map in Hin.
  destruct Hin as (link & Hlink & Hin).
  destruct (a_href link) as [h |] eqn:Hh; [| destruct Hin].
  destruct Hin as [Heq | []]. injection Heq as -> <-.
  exists selector, container, link. auto.
Qed.

Lemma scan_links_unnumbered (page_links : list (string * string)) (href : string) :
  scan_links None page_links = Return (Some href) ->
  exists text : string,
    In (href, text) page_links /\ isdigit text = false /\
    in_list (lower text) next_words = true.
Proof.
  induction page_links as [| [h link_text] rest IH]; cbn [scan_links];
    [discriminate |].
  destruct (isdigit link_text) eqn:Hdigit.
  - destruct (py_int link_text); [| discriminate].
    intros H. destruct (IH H) as (text & Hin & Hrest).
    exists text. split; [right; exact Hin | exact Hrest].
  - destruct (in_list (lower link_text) next_words) eqn:Hnext.
    + intros H. injection H as <-. exists link_text.
      split; [left; reflexivity | split; assumption].
    + intros H. destruct (IH H) as (text & Hin & Hrest).
      exists text. split; [right; exact Hin | exact Hrest].
Qed.

Lemma scan_containers_unnumbered (soup : Soup) (selectors : list string)
  (href : string) :
  scan_containers soup None selectors = Return (Some href) ->
  exists text : string,
    In (href, text) (links_under soup selectors) /\ isdigit text = false /\
    in_list (lower text) next_words = true.
Proof.
  induction selectors as [| selector rest IH];
    cbn [scan_containers links_under flat_map]; [discriminate |].
  assert (Hlater : scan_containers soup None rest = Return (Some href) ->
                   exists text : string,
                     In (href, text)
                        (match select_one soup selector with
                         | Some pagination => find_all_a_href pagination
                         | None => []
                         end ++ links_under soup rest)%list /\
                     isdigit text = false /\ in_list (lower text) next_words = true).
  { intros H. destruct (IH H) as (text & Hin & Hrest). exists text.
    split; [apply in_or_app; right; exact Hin | exact Hrest]. }
  destruct (select_one soup selector) as [pagination |]; [| exact Hlater].
  destruct (scan_links None (find_all_a_href pagination)) as [[h |] |] eqn:Hscan;
    cbn [bind_exn]; [| exact Hlater | discriminate].
  intros H. injection H as ->.
  destruct (scan_links_unnumbered _ _ Hscan) as (text & Hin & Hrest).
  exists text. split; [apply in_or_app; left; exact Hin | exact Hrest].
Qed.

(** C10.  On a URL from which no page number is extracted, the
    numbered-link strategy returns nothing or the target of a link of a
    pagination container whose text is not a number and whose lower-cased
    form is one of next, >, →. *)
Theorem numbered_next_without_page_number (soup : Soup) (current_url : string) :
  _extract_page_number current_url = None ->
  match _find_numbered_next soup current_url with
  | None => True
  | Some href =>
      exists (selector : string) (container : Tag) (link : Anchor),
        In selector pagination_selectors /\
        select_one soup selector = Some container /\
        In link (tag_anchors container) /\
        a_href link = Some href /\
        isdigit (a_text link) = false /\
        In (lower (a_text link)) next_words
  end.
Proof.
  intros Hnone. unfold _find_numbered_next. rewrite Hnone.
  destruct (scan_containers soup None pagination_selectors) as [[href |] |] eqn:Hscan;
    cbn [catch]; [| exact I | exact I].
  destruct (scan_containers_unnumbered _ _ _ Hscan) as (text & Hin & Hdigit & Hnext).
  apply in_links_under in Hin as (selector & container & link & H1 & H2 & H3 & H4 & <-).
  exists selector, container, link. repeat (split; [assumption |]).
  unfold in_list in Hnext. apply existsb_exists in Hnext as (w & Hw & Heq).
  apply String.eqb_eq in Heq. rewrite Heq. exact Hw.
Qed.

(** *** URL construction *)

Lemma rewrite_path_first (parsed : ParseResult)
  (patterns : list (re.pattern * (string * string)))
  (pattern : re.pattern) (replacement : string * string)
  (before digits after : string) (n : Z) :
  List.find (fun entry => match re.search (fst entry) (path parsed) with
                          | Some _ => true
                          | None => false
                          end) patterns = Some (pattern, replacement) ->
  re.search pattern (path parsed) = Some (before, digits, after) ->
  py_int digits = Some n ->
  rewrite_path parsed patterns
  = Return (Some (geturl (replace_path
                            (re.sub pattern (format replacement (n + 1)) (path parsed))
                            parsed))).
Proof.
  intros Hfind Hsearch Hint.
  induction patterns as [| [pat repl] rest IH]; simpl in *; [discriminate |].
  destruct (re.search pat (path parsed)) as [[[b d] a] |] eqn:Hs.
  - injection Hfind as -> ->. rewrite Hs in Hsearch.
    injection Hsearch as -> -> ->. rewrite Hint. reflexivity.
  - apply IH, Hfind.
Qed.

Lemma format_keeps_literals (pattern : re.pattern) (replacement : string * string)
  (sep : string) (n : Z) :
  In (pattern, replacement) path_patterns ->
  re.sep_ok (re.separator pattern) sep = true ->
  format replacement n
  = re.lit_before pattern ++ hyphen sep ++ str n ++ re.lit_after pattern.
Proof.
  unfold path_patterns, format.
  intros [H | [H | [H | [H | []]]]]; injection H as <- <-; simpl;
    destruct sep as [| c [| c' sep]]; try discriminate; intros _; reflexivity.
Qed.

(** A path with one match.  When the path of the URL has a match of one of
    the page patterns, the first such pattern, in the order of the list, has
    its leftmost match after [before] and no match in the text [after] it,
    the result is the URL with the path [before ++ literal ++ hyphen ++
    (N + 1) ++ literal ++ after]. *)
Theorem construct_increments_single_match (current_url : string)
  (parsed : ParseResult) (pattern : re.pattern) (replacement : string * string)
  (before digits after : string) :
  urlparse current_url = Some parsed ->
  first_matching (path parsed) = Some (pattern, replacement) ->
  re.search pattern (path parsed) = Some (before, digits, after) ->
  re.search pattern after = None ->
  exists (sep : string) (n : Z),
    path parsed
    = before ++ re.lit_before pattern ++ sep ++ digits ++ re.lit_after pattern ++ after /\
    re.sep_ok (re.separator pattern) sep = true /\
    py_int digits = Some n /\
    _construct_next_page_url current_url
    = Some (geturl (replace_path
                      (before ++ (re.lit_before pattern ++ hyphen sep ++ str (n + 1)
                                  ++ re.lit_after pattern) ++ after)
                      parsed)).
Proof.
  intros Hparse Hfirst Hsearch Hafter.
  destruct (re_facts.search_spec _ _ _ _ _ Hsearch)
    as (sep & Hpath & Hsep & Hne & Hdigits).
  destruct (pystr_facts.py_int_decimal_text digits Hne Hdigits) as (n & Hint & _).
  exists sep, n. repeat (split; [assumption |]).
  unfold _construct_next_page_url. rewrite Hparse. cbn [lift_opt bind_exn].
  pose proof Hfirst as Hin. apply find_some in Hin as [Hin _].
  unfold first_matching in Hfirst.
  rewrite (rewrite_path_first parsed path_patterns pattern replacement
             before digits after n Hfirst Hsearch Hint).
  cbn [bind_exn catch].
  rewrite (re_facts.sub_single_match pattern _ _ before digits after Hsearch Hafter).
  rewrite (format_keeps_literals pattern replacement sep (n + 1));
    [reflexivity | exact Hin | exact Hsep].
Qed.

End Facts.

(** With the "next" link ahead of the numbers the strategy returns it,
    although the link 3 is there and the current page is 2. *)
Lemma numbered_next_takes_earlier_next_link :
  @_extract_page_number urllib_model.model "https://shop.example/page/2" = Some 2%Z /\
  In ("/page/3", "3") (page_links samples.next_first_page) /\
  @_find_numbered_next urllib_model.model samples.next_first_page
    "https://shop.example/page/2" = Some "/page/last".
Proof.
  split; [reflexivity | split; [| reflexivity]].
  simpl. auto.
Qed.

Lemma numbered_next_first_in_document_order_witness :
  @_find_numbered_next urllib_model.model samples.numbered_page
    "https://shop.example/page/2"
  = Some "/page/3".
Proof.
  apply (@numbered_next_first_in_document_order urllib_model.model
           samples.numbered_page "https://shop.example/page/2" 2).
  - reflexivity.
  - discriminate.
  - repeat constructor; unfold parseable; simpl; discriminate.
Defined.

(** A number written in another script is a number for the strategy too. *)
Example numbered_next_reads_other_digits :
  @_find_numbered_next urllib_model.model samples.arabic_indic_page
    "https://shop.example/page/2"
  = Some "/page/3".
Proof. reflexivity. Qed.

(** A text that [isdigit] accepts and [int] rejects ends the search of the
    strategy. *)
Example numbered_next_stops_at_superscript :
  isdigit "²" = true /\ py_int "²" = None /\
  @_find_numbered_next urllib_model.model samples.superscript_page
    "https://shop.example/page/2"
  = None.
Proof. repeat split. Qed.

Lemma numbered_next_without_page_number_witness :
  match @_find_numbered_next urllib_model.model samples.unnumbered_page
          "https://shop.example/list" with
  | None => True
  | Some href =>
      exists (selector : string) (container : Tag) (link : Anchor),
        In selector pagination_selectors /\
        select_one samples.unnumbered_page selector = Some container /\
        In link (tag_anchors container) /\
        a_href link = Some href /\
        isdigit (a_text link) = false /\
        In (lower (a_text link)) next_words
  end.
Proof.
  apply (@numbered_next_without_page_number urllib_model.model
           samples.unnumbered_page "https://shop.example/list").
  reflexivity.
Defined.

Example construct_catalogue_page_3 :
  @_construct_next_page_url urllib_model.model "/catalogue/page-3/"
  = Some "/catalogue/page-4/".
Proof. reflexivity. Qed.

(** C6.  On [/catalogue/page_3/] the result is [/catalogue/page-4/]: the
    number is incremented and the underscore before it has become a hyphen,
    so the rest of the path is not preserved.  On [/page-2/sub/page-7] the
    result is [/page-3/sub/page-3]: the second number is overwritten with
    the first one plus one. *)
Theorem construct_rewrites_the_separator :
  @_construct_next_page_url urllib_model.model "/catalogue/page_3/"
  = Some "/catalogue/page-4/" /\
  @_construct_next_page_url urllib_model.model "/catalogue/page_3/"
  <> Some "/catalogue/page_4/" /\
  @_construct_next_page_url urllib_model.model "/page-2/sub/page-7"
  = Some "/page-3/sub/page-3" /\
  @_construct_next_page_url urllib_model.model "/page-2/sub/page-7"
  <> Some "/page-3/sub/page-7".
Proof.
  split; [reflexivity | split; [discriminate | split; [reflexivity | discriminate]]].
Qed.

Lemma construct_increments_single_match_witness :
  exists (sep : string) (n : Z),
    path samples.catalogue_page_3
    = "/catalogue" ++ re.lit_before samples.page_sep_pattern ++ sep ++ "3"
      ++ re.lit_after samples.page_sep_pattern ++ "/" /\
    re.sep_ok (re.separator samples.page_sep_pattern) sep = true /\
    py_int "3" = Some n /\
    @_construct_next_page_url urllib_model.model "/catalogue/page-3/"
    = Some (@geturl urllib_model.model
              (replace_path
                 ("/catalogue" ++ (re.lit_before samples.page_sep_pattern ++ hyphen sep
                                   ++ str (n + 1)
                                   ++ re.lit_after samples.page_sep_pattern) ++ "/")
                 samples.catalogue_page_3)).
Proof.
  apply (@construct_increments_single_match urllib_model.model
           "/catalogue/page-3/" samples.catalogue_page_3
           samples.page_sep_pattern ("/page-", "") "/catalogue" "3" "/").
  - reflexivity.
  - reflexivity.
  - reflexivity.
  - reflexivity.
Defined.

End pagination_facts.

(** * Properties of [static_scraper.py] *)

Module static_scraper_facts.

Import PyStr urllib static_scraper.

Local Open Scope string_scope.

Section Facts.

Context {lib : UrlLib}.

Variable fetch : nat -> string -> response.
Variable REQUEST_DELAY : Q.

(** C7.  When a request fails, the loop ends with that one request: the
    URL is not requested again and nothing is slept, and the products
    collected before are returned. *)
Theorem failed_request_ends_crawl_at_once (fuel n : nat) (max_products : Z)
  (url : string) (products : list Product) (trace : list event) :
  truthy url = true ->
  fails (fetch n url) = true ->
  crawl fetch REQUEST_DELAY (S fuel) n max_products (Some url) products trace
  = Some (Return products, (trace ++ [Get url])%list).
Proof.
  intros Hurl Hfail. cbn [crawl]. rewrite Hurl. cbn [negb].
  destruct (fetch n url) as [| status_code page]; [reflexivity |].
  simpl in Hfail. rewrite Hfail. reflexivity.
Qed.

Lemma limit_not_reached_5 (products : list Product) :
  (List.length products < 5)%nat -> limit_reached 5 products = false.
Proof.
  intros H. unfold limit_reached. simpl.
  apply Z.leb_gt. lia.
Qed.

(** C8.  With [max_products=5], a first page of three products and a link
    to a second page of three products, the call returns the three products
    of the first page followed by the first two of the second one, after
    two requests; the third product of the second page is not extracted and
    the link of the second page is not followed. *)
Theorem crawl_stops_at_five_products (fuel : nat) (url next : string)
  (status1 status2 : Z) (page1 page2 : Page)
  (i1 i2 i3 j1 j2 j3 : Pod) (r1 r2 r3 s1 s2 : Product)
  (a : list (string * string)) (next_href : string) :
  truthy url = true ->
  fetch 0 url = Response status1 page1 ->
  raise_for_status status1 = false ->
  product_pods page1 = [i1; i2; i3] ->
  make_product url i1 = Return r1 ->
  make_product url i2 = Return r2 ->
  make_product url i3 = Return r3 ->
  next_button page1 = Some a ->
  pagination.get "href" a = Some next_href ->
  urljoin url next_href = Some next ->
  truthy next = true ->
  fetch 1 next = Response status2 page2 ->
  raise_for_status status2 = false ->
  product_pods page2 = [j1; j2; j3] ->
  make_product next j1 = Return s1 ->
  make_product next j2 = Return s2 ->
  scrape_static fetch REQUEST_DELAY (S (S fuel)) url 5
  = Some (Return [r1; r2; r3; s1; s2],
          [Get url; Sleep REQUEST_DELAY; Get next]).
Proof.
  intros Hurl Hf1 Hst1 Hp1 Hi1 Hi2 Hi3 Hnb Hhref Hjoin Hnext Hf2 Hst2 Hp2 Hj1 Hj2.
  unfold scrape_static. rewrite Hurl.
  cbn [crawl]. rewrite Hurl. cbn [negb].
  rewrite Hf1, Hst1, Hp1.
  cbn [collect]. rewrite limit_not_reached_5 by (simpl; lia).
  rewrite Hi1. cbn [bind_exn app]. rewrite limit_not_reached_5 by (simpl; lia).
  rewrite Hi2. cbn [bind_exn app]. rewrite limit_not_reached_5 by (simpl; lia).
  rewrite Hi3. cbn [bind_exn app]. rewrite limit_not_reached_5 by (simpl; lia).
  rewrite Hnb, Hhref, Hjoin.
  cbn [crawl]. rewrite Hnext. cbn [negb].
  rewrite Hf2, Hst2, Hp2.
  cbn [collect]. rewrite limit_not_reached_5 by (simpl; lia).
  rewrite Hj1. cbn [bind_exn app]. rewrite limit_not_reached_5 by (simpl; lia).
  rewrite Hj2. cbn [bind_exn app].
  reflexivity.
Qed.

End Facts.

Lemma failed_request_ends_crawl_at_once_witness :
  @crawl urllib_model.model samples.second_page_down 1.5 1 1 5
    (Some "https://books.toscrape.com/page-2.html")
    [ {| name := "Book 1a"; price := "10.00";
         link := "https://books.toscrape.com/book-1a.html" |} ]
    [ Get "https://books.toscrape.com/"; Sleep 1.5 ]
  = Some (Return [ {| name := "Book 1a"; price := "10.00";
                      link := "https://books.toscrape.com/book-1a.html" |} ],
          ([ Get "https://books.toscrape.com/"; Sleep 1.5 ]
           ++ [ Get "https://books.toscrape.com/page-2.html" ])%list).
Proof.
  apply (@failed_request_ends_crawl_at_once urllib_model.model
           samples.second_page_down 1.5 0 1 5
           "https://books.toscrape.com/page-2.html").
  - reflexivity.
  - reflexivity.
Defined.

Lemma crawl_stops_at_five_products_witness :
  @scrape_static urllib_model.model samples.three_pages 1.5 2
    "https://books.toscrape.com/" 5
  = Some (Return
            [ {| name := "Book 1a"; price := "10.00";
                 link := "https://books.toscrape.com/book-1a.html" |};
              {| name := "Book 1b"; price := "11.00";
                 link := "https://books.toscrape.com/book-1b.html" |};
              {| name := "Book 1c"; price := "12.00";
                 link := "https://books.toscrape.com/book-1c.html" |};
              {| name := "Book 2a"; price := "10.00";
                 link := "https://books.toscrape.com/book-2a.html" |};
              {| name := "Book 2b"; price := "11.00";
                 link := "https://books.toscrape.com/book-2b.html" |} ],
          [ Get "https://books.toscrape.com/"; Sleep 1.5;
            Get "https://books.toscrape.com/page-2.html" ]).
Proof.
  eapply (@crawl_stops_at_five_products urllib_model.model
            samples.three_pages 1.5 0
            "https://books.toscrape.com/"
            "https://books.toscrape.com/page-2.html").
  - reflexivity.
  - reflexivity.
  - reflexivity.
  - reflexivity.
  - reflexivity.
  - reflexivity.
  - reflexivity.
  - reflexivity.
  - reflexivity.
  - reflexivity.
  - reflexivity.
  - reflexivity.
  - reflexivity.
  - reflexivity.
  - reflexivity.
  - reflexivity.
Defined.

End static_scraper_facts.

(** * Further properties of [anti_bot.py] *)

Module throttle_facts.

Import PyStr anti_bot throttle anti_bot_facts.

Local Open Scope Q_scope.

Lemma uniform_between (a b u : Q) :
  a <= b -> 0 <= u -> u <= 1 -> a <= uniform a b u /\ uniform a b u <= b.
Proof.
  intros Hab Hu0 Hu1. unfold uniform.
  assert (H0 : 0 <= (b - a) * u)
    by (apply Qmult_le_0_compat; lra).
  assert (H1 : u * (b - a) <= 1 * (b - a))
    by (apply Qmult_le_compat_r; lra).
  split; lra.
Qed.

(** X1.  The delay that a call sleeps.  After any sequence of calls on a fresh
    object and for a draw [u] of [random()] between 0 and 1, a success call
    sleeps between 1 and 3 units and a failure call between twice and four
    times the new [backoff_factor], hence between 3 and 120 units, before
    the penalty of the rolling window; [backoff] never sleeps less than
    [async_backoff] does for the same draw. *)
Theorem delay_within_bounds (now : Q) (cs : list call) (increase : bool)
  (u t1 t2 : Q) :
  0 <= u -> u <= 1 ->
  let ab := run cs (init now) in
  let delay := fst (async_backoff increase u ab) in
  let factor := backoff_factor (snd (async_backoff increase u ab)) in
  (if increase
   then factor * 2 <= delay /\ delay <= factor * 4 /\ 3 <= delay /\ delay <= 120
   else 1 <= delay /\ delay <= 3) /\
  delay <= fst (backoff increase u t1 t2 ab).
Proof.
  intros Hu0 Hu1 ab delay factor.
  assert (Hab : within_bounds ab) by apply run_within_bounds, init_within_bounds.
  destruct (escalate_factor increase u ab Hab) as [(Hlo & Hhi & Hmax) Hstep].
  fold factor in Hlo, Hhi, Hstep.
  split.
  - subst delay factor. unfold async_backoff in *.
    destruct increase; simpl in *.
    + destruct Hab as (Hab1 & Hab2 & Hab3).
      set (f := Qmin (backoff_factor ab * 1.5) (max_backoff ab)) in *.
      assert (Hf : 1.5 <= f).
      { subst f. rewrite Hab3.
        destruct (Q.min_spec (backoff_factor ab * 1.5) 30) as [[_ E] | [_ E]];
          rewrite E; lra. }
      destruct (uniform_between (f * 2) (f * 4) u) as [H1 H2]; lra.
    + destruct (uniform_between 1 3 u) as [H1 H2]; lra.
  - subst delay. unfold async_backoff, backoff.
    destruct (escalate increase u ab) as [sleep_time ab1]; simpl.
    destruct (Qltb (t1 - start_time ab1) 60) eqn:Helapsed; simpl.
    + destruct (10 <? request_count ab1 + 1)%Z; simpl; [| lra].
      apply Qltb_true in Helapsed. lra.
    + lra.
Qed.

Lemma delay_within_bounds_witness :
  (3 <= fst (async_backoff true (1 # 2) (run three_failures (init 0))) /\
   fst (async_backoff true (1 # 2) (run three_failures (init 0))) <= 120) /\
  fst (async_backoff true (1 # 2) (run three_failures (init 0)))
  <= fst (backoff true (1 # 2) 5 5 (run three_failures (init 0))).
Proof.
  pose proof (delay_within_bounds 0 three_failures true (1 # 2) 5 5) as H.
  cbv zeta in H.
  destruct H as [(_ & _ & H3 & H120) Hsync].
  - discriminate.
  - discriminate.
  - split; [split; assumption | assumption].
Defined.

Lemma growth_ge_1 (n : nat) : 1 <= growth n.
Proof. induction n as [| n IH]; simpl; lra. Qed.

Lemma escalate_failure_factor (u : Q) (ab : AntiBot) :
  max_backoff ab = 30 ->
  backoff_factor (snd (escalate true u ab)) == Qmin (backoff_factor ab * 1.5) 30.
Proof. intros Hmax. simpl. rewrite Hmax. reflexivity. Qed.

Lemma step_failure_factor (c : call) (ab : AntiBot) :
  max_backoff ab = 30 -> increase_of c = true ->
  backoff_factor (snd (step ab c)) == Qmin (backoff_factor ab * 1.5) 30.
Proof.
  intros Hmax Hc. destruct c as [increase u t1 t2 | increase u]; simpl in Hc; subst.
  - simpl step. rewrite (proj1 (backoff_keeps_factor true u t1 t2 ab)).
    apply escalate_failure_factor, Hmax.
  - apply escalate_failure_factor, Hmax.
Qed.

(** X2.  Failures in a row.  After [n] failure calls in a row, by either
    variant, [backoff_factor] is [min(f * 1.5 ** n, 30)], where [f] is its
    value before them: the cap only shows at the end. *)
Theorem consecutive_failures_closed_form (cs : list call) (ab : AntiBot) :
  within_bounds ab ->
  Forall (fun c => increase_of c = true) cs ->
  backoff_factor (run cs ab)
  == Qmin (backoff_factor ab * growth (List.length cs)) 30.
Proof.
  revert ab. induction cs as [| c cs IH]; intros ab Hab Hfail.
  - simpl. destruct Hab as (Hlo & Hhi & _).
    destruct (Q.min_spec (backoff_factor ab * 1) 30) as [[Hc E] | [Hc E]];
      rewrite E; lra.
  - change (run (c :: cs) ab) with (run cs (snd (step ab c))).
    inversion Hfail as [| c' cs' Hc Hcs]; subst.
    rewrite (IH _ (proj1 (step_factor c ab Hab)) Hcs).
    pose proof (step_failure_factor c ab (proj2 (proj2 Hab)) Hc) as Hstep.
    pose proof (growth_ge_1 (List.length cs)) as Hg.
    destruct Hab as (Hlo & Hhi & _).
    set (f := backoff_factor ab) in *.
    set (f1 := backoff_factor (snd (step ab c))) in *.
    set (g := growth (List.length cs)) in *.
    change (growth (List.length (c :: cs))) with (1.5 * g).
    assert (Hfg : f * 1.5 <= f * 1.5 * g).
    { assert (H : f * 1.5 * 1 <= f * 1.5 * g) by (apply Qmult_le_l; lra).
      lra. }
    destruct (Q.min_spec (f * 1.5) 30) as [[Hc1 E1] | [Hc1 E1]];
      rewrite E1 in Hstep.
    + assert (E : f1 * g == f * (1.5 * g)) by (rewrite Hstep; ring).
      rewrite E. reflexivity.
    + assert (E : f1 * g == 30 * g) by (rewrite Hstep; reflexivity).
      rewrite E.
      assert (H30 : 30 <= 30 * g).
      { assert (H : 30 * 1 <= 30 * g) by (apply Qmult_le_l; lra). lra. }
      assert (Hbig : 30 <= f * (1.5 * g)) by lra.
      destruct (Q.min_spec (30 * g) 30) as [[? E2] | [? E2]];
        destruct (Q.min_spec (f * (1.5 * g)) 30) as [[? E3] | [? E3]];
        rewrite E2, E3; lra.
Qed.

Lemma consecutive_failures_closed_form_witness :
  backoff_factor (run three_failures (init 0))
  == Qmin (backoff_factor (init 0) * growth (List.length three_failures)) 30.
Proof.
  apply (consecutive_failures_closed_form three_failures (init 0)).
  - repeat split; simpl; discriminate.
  - repeat constructor.
Defined.

Lemma backoff_past_window (increase : bool) (u t1 t2 : Q) (ab : AntiBot) :
  start_time ab + 60 <= t1 ->
  fst (backoff increase u t1 t2 ab) = fst (escalate increase u ab) /\
  request_count (snd (backoff increase u t1 t2 ab)) = (request_count ab + 1)%Z /\
  start_time (snd (backoff increase u t1 t2 ab)) = start_time ab.
Proof.
  intros Hlate. unfold backoff.
  destruct (escalate_keeps_window increase u ab) as [Hrc Hst].
  destruct (escalate increase u ab) as [sleep_time ab1]; simpl in *.
  rewrite Hrc, Hst.
  replace (Qltb (t1 - start_time ab) 60) with false.
  - simpl. repeat split.
  - symmetry. apply not_true_iff_false. rewrite Qltb_true. lra.
Qed.

(** X3.  A window that has run out stays.  When every call of [backoff] reads
    the clock 60 units or more after [start_time], the window is never
    reset: [start_time] keeps its value, [request_count] grows by one with
    each call of [backoff], and a further such call sleeps the drawn delay
    with no penalty, however many requests have been tallied. *)
Theorem expired_window_is_never_reset (cs : list call) (ab : AntiBot)
  (increase : bool) (u t1 t2 : Q) :
  Forall (past_window (start_time ab)) cs ->
  start_time ab + 60 <= t1 ->
  start_time (run cs ab) = start_time ab /\
  request_count (run cs ab) = (request_count ab + sync_calls cs)%Z /\
  fst (backoff increase u t1 t2 (run cs ab))
  = fst (escalate increase u (run cs ab)) /\
  start_time (snd (backoff increase u t1 t2 (run cs ab))) = start_time ab.
Proof.
  intros Hcs Hlate.
  assert (Hrun : start_time (run cs ab) = start_time ab /\
                 request_count (run cs ab) = (request_count ab + sync_calls cs)%Z).
  { clear Hlate. revert ab Hcs. induction cs as [| c cs IH]; intros ab Hcs.
    - simpl. unfold sync_calls; simpl. split; [reflexivity | lia].
    - change (run (c :: cs) ab) with (run cs (snd (step ab c))).
      inversion Hcs as [| c' cs' Hc Hrest]; subst.
      rewrite sync_calls_cons.
      destruct c as [i v r1 r2 | i v]; simpl in Hc; simpl step.
      + destruct (backoff_past_window i v r1 r2 ab Hc) as (_ & Hrc & Hst).
        destruct (IH (snd (backoff i v r1 r2 ab))) as [Hst' Hrc'].
        * rewrite Hst. exact Hrest.
        * rewrite Hst', Hrc', Hst, Hrc. split; [reflexivity | lia].
      + destruct (escalate_keeps_window i v ab) as [Hrc Hst].
        unfold async_backoff.
        destruct (IH (snd (escalate i v ab))) as [Hst' Hrc'].
        * rewrite Hst. exact Hrest.
        * rewrite Hst', Hrc', Hst, Hrc. split; [reflexivity | lia]. }
  destruct Hrun as [Hst Hrc].
  destruct (backoff_past_window increase u t1 t2 (run cs ab)) as (Hd & _ & Hst').
  - rewrite Hst. exact Hlate.
  - repeat split; try assumption. rewrite Hst'. exact Hst.
Qed.

Lemma expired_window_is_never_reset_witness :
  start_time (run late_calls samples.ten_tallied) = start_time samples.ten_tallied /\
  request_count (run late_calls samples.ten_tallied)
  = (request_count samples.ten_tallied + sync_calls late_calls)%Z /\
  fst (backoff false 0 90 90 (run late_calls samples.ten_tallied))
  = fst (escalate false 0 (run late_calls samples.ten_tallied)) /\
  start_time (snd (backoff false 0 90 90 (run late_calls samples.ten_tallied)))
  = start_time samples.ten_tallied.
Proof.
  apply (expired_window_is_never_reset late_calls samples.ten_tallied false 0 90 90).
  - repeat constructor; simpl; discriminate.
  - simpl. discriminate.
Defined.

(** *** Detection *)

Local Open Scope string_scope.

Lemma append_cons (c : ascii) (a b : string) : String c a ++ b = String c (a ++ b).
Proof. reflexivity. Qed.

Lemma append_assoc (a b c : string) : (a ++ b) ++ c = a ++ (b ++ c).
Proof.
  induction a as [| x a IH]; [reflexivity |].
  rewrite !append_cons, IH. reflexivity.
Qed.

Lemma lower_append (a b : string) : lower (a ++ b) = lower a ++ lower b.
Proof.
  induction a as [| x a IH]; [reflexivity |].
  rewrite append_cons. simpl lower. rewrite IH. reflexivity.
Qed.

Lemma occurs_in_context (needle hay before after : string) :
  occurs_in needle hay -> occurs_in needle (before ++ hay ++ after).
Proof.
  intros (l & r & ->). exists (before ++ l), (r ++ after).
  rewrite !append_assoc. reflexivity.
Qed.

Lemma any_indicator_context (indicators : list string) (text before after : string) :
  existsb (fun indicator => contains indicator (lower text)) indicators = true ->
  existsb (fun indicator => contains indicator (lower (before ++ text ++ after)))
          indicators = true.
Proof.
  rewrite !any_indicator. intros (k & Hin & Hocc). exists k. split; [exact Hin |].
  rewrite !lower_append. apply occurs_in_context, Hocc.
Qed.

(** X4.  Text around a page does not hide it.  A body that [detect_captcha]
    flags, or that [detect_rate_limit] flags with some status code, is still
    flagged with any text before and after it. *)
Theorem detection_survives_context (body before after : string) (status_code : Z) :
  (detect_captcha body = true ->
   detect_captcha (before ++ body ++ after) = true) /\
  (detect_rate_limit body status_code = true ->
   detect_rate_limit (before ++ body ++ after) status_code = true).
Proof.
  split.
  - unfold detect_captcha. apply any_indicator_context.
  - unfold detect_rate_limit.
    destruct (status_code =? 429)%Z; [reflexivity |].
    apply any_indicator_context.
Qed.

Lemma detection_survives_context_witness :
  detect_captcha ("<html><body>" ++ "Please complete the CAPTCHA" ++ "</body></html>")
  = true /\
  detect_rate_limit ("<p>" ++ "Rate limit reached" ++ "</p>") 200 = true.
Proof.
  split.
  - apply (proj1 (detection_survives_context "Please complete the CAPTCHA"
                    "<html><body>" "</body></html>" 200)).
    reflexivity.
  - apply (proj2 (detection_survives_context "Rate limit reached"
                    "<p>" "</p>" 200)).
    reflexivity.
Defined.

End throttle_facts.

(** * Properties of the pool of sessions *)

Module session_facts.

Import session_manager.

Section Facts.

Variable H : Type.
Variable update : H -> H -> H.
Variable default_headers : H.

Lemma new_manager_pool (n : Z) (drawn : nat -> H) :
  (0 < n)%Z -> pool_of n (new_manager update default_headers n drawn).
Proof.
  intros Hn. unfold pool_of, new_manager; simpl.
  split; [reflexivity | split; [| lia]].
  rewrite List.map_map. simpl. apply List.map_id.
Qed.

Lemma store_ids (l : list (Session H)) (k : nat) (old new : Session H) :
  List.nth_error l k = Some old -> session_id new = session_id old ->
  List.map session_id (store l k new) = List.map session_id l.
Proof.
  revert k. induction l as [| y l IH]; intros [| k]; simpl; try discriminate.
  - intros Heq Hid. injection Heq as ->. rewrite Hid. reflexivity.
  - intros Hk Hid. rewrite (IH k Hk Hid). reflexivity.
Qed.

Lemma pool_lookup (n : Z) (m : SessionManager H) :
  pool_of n m ->
  exists s : Session H,
    List.nth_error (sessions m) (Z.to_nat (current_session m)) = Some s /\
    session_id s = Z.to_nat (current_session m).
Proof.
  intros (_ & Hids & Hcur).
  assert (Hnth : List.nth_error (List.map session_id (sessions m))
                   (Z.to_nat (current_session m))
                 = Some (Z.to_nat (current_session m))).
  { rewrite Hids. rewrite List.nth_error_nth' with (d := O).
    - rewrite List.seq_nth by lia. reflexivity.
    - rewrite List.length_seq. lia. }
  rewrite List.nth_error_map in Hnth.
  destruct (List.nth_error (sessions m) (Z.to_nat (current_session m)))
    as [s |]; [| discriminate].
  exists s. split; [reflexivity |]. simpl in Hnth. congruence.
Qed.

(** One call on a pool: it returns the session under the index and moves
    the index one place on, back to 0 after the last session. *)
Lemma get_session_pool (n : Z) (fresh : H) (m : SessionManager H) :
  pool_of n m ->
  exists (s : Session H) (m' : SessionManager H),
    get_session update fresh m = Return (s, m') /\
    session_id s = Z.to_nat (current_session m) /\
    pool_of n m' /\
    current_session m' = ((current_session m + 1) mod n)%Z.
Proof.
  intros Hpool. destruct (pool_lookup n m Hpool) as (s & Hnth & Hid).
  destruct Hpool as (Hmax & Hids & Hcur).
  unfold get_session, index.
  replace (current_session m <? 0)%Z with false by (symmetry; apply Z.ltb_ge; lia).
  replace (current_session m <? 0)%Z with false by (symmetry; apply Z.ltb_ge; lia).
  rewrite Hnth. cbn [bind_exn].
  replace (max_sessions m =? 0)%Z with false by (symmetry; apply Z.eqb_neq; lia).
  eexists _, _. split; [reflexivity |]. simpl.
  split; [exact Hid | split; [| rewrite Hmax; reflexivity]].
  unfold pool_of; simpl. split; [exact Hmax | split].
  - rewrite (store_ids _ _ s); [exact Hids | exact Hnth | reflexivity].
  - rewrite Hmax. apply Z.mod_pos_bound. lia.
Qed.

Lemma get_sessions_pool (n : Z) (draws : list H) (m : SessionManager H) :
  pool_of n m ->
  exists (rs : list (Session H)) (m' : SessionManager H),
    get_sessions update draws m = Return (rs, m') /\
    List.map session_id rs
    = List.map (fun k => Z.to_nat ((current_session m + Z.of_nat k) mod n))
               (List.seq 0 (List.length draws)) /\
    pool_of n m' /\
    current_session m'
    = ((current_session m + Z.of_nat (List.length draws)) mod n)%Z.
Proof.
  revert m. induction draws as [| fresh rest IH]; intros m Hpool.
  - exists [], m. cbn [get_sessions List.length List.seq List.map].
    split; [reflexivity | split; [reflexivity | split; [exact Hpool |]]].
    destruct Hpool as (_ & _ & Hcur).
    rewrite Z.add_0_r, Z.mod_small by lia. reflexivity.
  - destruct (get_session_pool n fresh m Hpool) as (s & m1 & Hget & Hid & Hpool1 & Hcur1).
    destruct (IH m1 Hpool1) as (rs & m2 & Hrest & Hids & Hpool2 & Hcur2).
    exists (s :: rs), m2. cbn [get_sessions].
    rewrite Hget. cbn [bind_exn snd fst]. rewrite Hrest. cbn [bind_exn snd fst].
    split; [reflexivity |].
    destruct Hpool as (_ & _ & Hcur).
    split; [| split; [exact Hpool2 |]].
    + cbn [List.length List.seq List.map]. rewrite Hid, Hids. f_equal.
      * rewrite Z.add_0_r, Z.mod_small by lia. reflexivity.
      * rewrite <- List.seq_shift, List.map_map. apply List.map_ext.
        intros k. rewrite Hcur1, Zplus_mod_idemp_l. f_equal. f_equal. lia.
    + rewrite Hcur2, Hcur1, Zplus_mod_idemp_l. f_equal.
      cbn [List.length]. lia.
Qed.

(** X5.  Round robin.  On a manager made with a positive [max_sessions], any
    number of calls of [get_session] succeed; the [k]-th call, counting from
    0, returns the session that the constructor created at rank
    [k mod max_sessions]; the pool keeps its size and the index stays within
    it. *)
Theorem get_session_round_robin (n : Z) (drawn : nat -> H) (draws : list H) :
  (0 < n)%Z ->
  exists (rs : list (Session H)) (m : SessionManager H),
    get_sessions update draws (new_manager update default_headers n drawn) = Return (rs, m) /\
    List.map session_id rs
    = List.map (fun k => Z.to_nat (Z.of_nat k mod n)) (List.seq 0 (List.length draws)) /\
    List.length (sessions m) = Z.to_nat n /\
    current_session m = (Z.of_nat (List.length draws) mod n)%Z.
Proof.
  intros Hn.
  destruct (get_sessions_pool n draws _ (new_manager_pool n drawn Hn))
    as (rs & m & Hrun & Hids & (Hmax & Hseq & Hcur) & Hlast).
  exists rs, m. split; [exact Hrun |]. simpl in Hids, Hlast.
  split; [exact Hids | split; [| exact Hlast]].
  rewrite <- (List.length_map session_id), Hseq, List.length_seq. reflexivity.
Qed.

(** X6.  A pool without sessions.  With [max_sessions] zero or negative the
    constructor makes no session, and [get_session] raises. *)
Theorem get_session_on_empty_pool (n : Z) (drawn : nat -> H) (fresh : H) :
  (n <= 0)%Z ->
  sessions (new_manager update default_headers n drawn) = [] /\
  get_session update fresh (new_manager update default_headers n drawn) = Raise.
Proof.
  intros Hn. unfold new_manager, get_session; simpl.
  replace (Z.to_nat n) with O by lia. split; reflexivity.
Qed.

End Facts.

Lemma get_session_round_robin_witness :
  exists (rs : list (Session string)) (m : SessionManager string),
    get_sessions (fun _ fresh => fresh) ["ua1"; "ua2"; "ua3"; "ua4"; "ua5"]%string
      (new_manager (fun _ fresh => fresh) ""%string 3 (fun _ => "ua0"%string))
    = Return (rs, m) /\
    List.map session_id rs
    = List.map (fun k => Z.to_nat (Z.of_nat k mod 3))
        (List.seq 0 (List.length ["ua1"; "ua2"; "ua3"; "ua4"; "ua5"]%string)) /\
    List.length (sessions m) = Z.to_nat 3 /\
    current_session m
    = (Z.of_nat (List.length ["ua1"; "ua2"; "ua3"; "ua4"; "ua5"]%string) mod 3)%Z.
Proof.
  apply (get_session_round_robin string (fun _ fresh => fresh) ""%string 3
           (fun _ => "ua0"%string) ["ua1"; "ua2"; "ua3"; "ua4"; "ua5"]%string).
  lia.
Defined.

Lemma get_session_on_empty_pool_witness :
  sessions (new_manager (fun _ fresh => fresh) ""%string 0 (fun _ => "ua0"%string)) = [] /\
  get_session (fun _ fresh => fresh) "ua1"%string
    (new_manager (fun _ fresh => fresh) ""%string 0 (fun _ => "ua0"%string))
  = Raise.
Proof.
  apply (get_session_on_empty_pool string (fun _ fresh => fresh) ""%string 0
           (fun _ => "ua0"%string) "ua1"%string).
  lia.
Defined.

End session_facts.

(** * Further properties of [pagination.py] *)

Module pagination_bulk_facts.

Import PyStr urllib pagination pagination_bulk pagination_facts.

Local Open Scope string_scope.

Section Facts.

Context {lib : UrlLib}.

(** X7.  No URL twice.  Through any sequence of pages, the URLs that the calls
    of [get_next_page] on one handler return are pairwise distinct, none of
    them was in [visited_urls] at the start, and the set at the end is the
    one at the start with them added. *)
Theorem walk_never_repeats (pages : list (Soup * string)) (visited_urls : gset string) :
  match walk pages visited_urls with
  | Return (urls, visited') =>
      List.NoDup urls /\
      (forall u : string, In u urls -> u ∉ visited_urls) /\
      visited' = list_to_set urls ∪ visited_urls
  | Raise => True
  end.
Proof.
  revert visited_urls. induction pages as [| [soup current_url] rest IH];
    intros visited_urls.
  - simpl. split; [constructor | split; [intros u [] | set_solver]].
  - cbn [walk].
    destruct (get_next_page soup current_url visited_urls) as [[r v1] |] eqn:Hcall;
      cbn [bind_exn snd fst]; [| exact I].
    specialize (IH v1).
    destruct (walk rest v1) as [[urls v2] |]; cbn [bind_exn snd fst]; [| exact I].
    destruct IH as (Hnodup & Hnew & Hset).
    apply get_next_page_returns in Hcall.
    destruct r as [full_url |].
    + destruct Hcall as [Hfresh ->]. split; [| split].
      * constructor; [| exact Hnodup]. intros Hin.
        apply (Hnew full_url Hin). set_solver.
      * intros u [<- | Hin]; [exact Hfresh |].
        specialize (Hnew u Hin). set_solver.
      * rewrite Hset. set_solver.
    + subst v1. split; [exact Hnodup | split; [exact Hnew | exact Hset]].
Qed.

(** X8.  The shortcut and the handler.  When the function written for
    books.toscrape.com returns a URL that the handler has not visited, the
    handler's [get_next_page] returns the same URL for the same page and
    base. *)
Theorem books_shortcut_agrees_with_handler (soup : Soup) (base_url full_url : string)
  (visited_urls : gset string) :
  books_get_next_page soup base_url = Return (Some full_url) ->
  full_url ∉ visited_urls ->
  get_next_page soup base_url visited_urls
  = Return (Some full_url, {[full_url]} ∪ visited_urls).
Proof.
  unfold books_get_next_page. intros Hbooks Hfresh.
  destruct (select_one soup "li.next a") as [next_button |] eqn:Hsel; [| discriminate].
  destruct (get "href" (tag_attrs next_button)) as [href |] eqn:Hhref; [| discriminate].
  destruct (truthy href) eqn:Htruthy; [| discriminate].
  destruct (urljoin base_url href) as [u |] eqn:Hjoin; simpl in Hbooks; [| discriminate].
  injection Hbooks as ->.
  assert (Hbutton : _find_next_button soup = Some href).
  { unfold _find_next_button, next_button_selectors. cbn [find_next_button_in].
    rewrite Hsel, Hhref. cbn [truthy_opt]. rewrite Htruthy. reflexivity. }
  unfold get_next_page, fresh. rewrite Hbutton, Htruthy, Hjoin. cbn [lift_opt bind_exn].
  destruct (decide (full_url ∈ visited_urls)) as [Hin | _]; [contradiction |].
  reflexivity.
Qed.

(** *** Bulk discovery *)

Lemma not_listed (full_url : string) (page_urls : list string) :
  listed full_url page_urls = false -> ~ In full_url page_urls.
Proof.
  unfold listed. intros Hfalse Hin.
  assert (Htrue : existsb (String.eqb full_url) page_urls = true).
  { apply existsb_exists. exists full_url. split; [exact Hin | apply String.eqb_refl]. }
  congruence.
Qed.

Lemma NoDup_snoc (l : list string) (x : string) :
  List.NoDup l -> ~ In x l -> List.NoDup (l ++ [x])%list.
Proof.
  induction l as [| y l IH]; intros Hl Hx; simpl.
  - constructor; [intros [] | constructor].
  - inversion Hl as [| y' l' Hy Hl']; subst. constructor.
    + rewrite in_app_iff. intros [Hin | [-> | []]]; [contradiction |].
      apply Hx. left. reflexivity.
    + apply IH; [exact Hl' |]. intros Hin. apply Hx. right. exact Hin.
Qed.

Lemma add_links_discovered (current_url : string) (max_pages : Z) (links : list Tag)
  (page_urls : list string) :
  discovered current_url max_pages links page_urls
    (fst (add_links current_url max_pages links page_urls)).
Proof.
  revert page_urls. induction links as [| link rest IH]; intros page_urls.
  - simpl. unfold discovered. auto.
  - assert (Hskip : discovered current_url max_pages rest page_urls
                      (fst (add_links current_url max_pages rest page_urls)) ->
                    discovered current_url max_pages (link :: rest) page_urls
                      (fst (add_links current_url max_pages rest page_urls))).
    { intros (H1 & H2 & H3). split; [exact H1 | split; [exact H2 |]].
      intros u Hu. destruct (H3 u Hu) as [Hin | (l & h & Hl & Hrest)];
        [left; exact Hin | right; exists l, h; split; [right; exact Hl | exact Hrest]]. }
    cbn [add_links].
    destruct (get "href" (tag_attrs link)) as [href |] eqn:Hhref; [| apply Hskip, IH].
    destruct (truthy href) eqn:Htruthy; [| apply Hskip, IH].
    destruct (urljoin current_url href) as [full_url |] eqn:Hjoin.
    + destruct (listed full_url page_urls) eqn:Hlisted; cbn [negb andb];
        [apply Hskip, IH |].
      destruct (Z.ltb_spec (Z.of_nat (List.length page_urls)) max_pages) as [Hroom | _];
        [| apply Hskip, IH].
      destruct (IH (page_urls ++ [full_url])%list) as (H1 & H2 & H3).
      split; [| split].
      * intros Hnodup. apply H1, NoDup_snoc; [exact Hnodup |].
        apply not_listed, Hlisted.
      * intros _. apply H2. rewrite List.length_app. simpl. lia.
      * intros u Hu. destruct (H3 u Hu) as [Hin | (l & h & Hl & Hrest)].
        -- apply in_app_iff in Hin as [Hin | [<- | []]]; [left; exact Hin |].
           right. exists link, href. split; [left; reflexivity | auto].
        -- right. exists l, h. split; [right; exact Hl | exact Hrest].
    + simpl. unfold discovered. auto.
Qed.

(** X9.  Bulk discovery.  The list that [get_all_page_urls] returns has no URL
    twice and no more than [max_pages] entries (none when [max_pages] is
    zero or negative); each entry is the absolute form of a non-empty
    [href] of an element that one of the three selectors finds. *)
Theorem get_all_page_urls_distinct_and_capped (page : Selection) (current_url : string)
  (max_pages : Z) :
  List.NoDup (get_all_page_urls page current_url max_pages) /\
  (Z.of_nat (List.length (get_all_page_urls page current_url max_pages))
   <= Z.max 0 max_pages)%Z /\
  (forall u : string, In u (get_all_page_urls page current_url max_pages) ->
     exists (selector : string) (link : Tag) (href : string),
       In selector bulk_selectors /\ In link (select page selector) /\
       get "href" (tag_attrs link) = Some href /\ truthy href = true /\
       urljoin current_url href = Some u).
Proof.
  unfold get_all_page_urls.
  assert (Hgen : forall (selectors : list string) (page_urls : list string),
            let after := fst (add_selectors page current_url max_pages selectors page_urls) in
            (List.NoDup page_urls -> List.NoDup after) /\
            ((Z.of_nat (List.length page_urls) <= Z.max 0 max_pages)%Z ->
             (Z.of_nat (List.length after) <= Z.max 0 max_pages)%Z) /\
            (forall u : string, In u after ->
               In u page_urls \/
               exists (selector : string) (link : Tag) (href : string),
                 In selector selectors /\ In link (select page selector) /\
                 get "href" (tag_attrs link) = Some href /\ truthy href = true /\
                 urljoin current_url href = Some u)).
  { induction selectors as [| selector rest IH]; intros page_urls; cbn zeta.
    - simpl. auto.
    - cbn [add_selectors].
      pose proof (add_links_discovered current_url max_pages (select page selector)
                    page_urls) as (H1 & H2 & H3).
      destruct (add_links current_url max_pages (select page selector) page_urls)
        as [page_urls' ok]; cbn [fst] in H1, H2, H3.
      assert (Hhere : forall u : string, In u page_urls' ->
                In u page_urls \/
                exists (sel : string) (link : Tag) (href : string),
                  In sel (selector :: rest) /\ In link (select page sel) /\
                  get "href" (tag_attrs link) = Some href /\ truthy href = true /\
                  urljoin current_url href = Some u).
      { intros u Hu. destruct (H3 u Hu) as [Hin | (l & h & Hl & Hrest)];
          [left; exact Hin |].
        right. exists selector, l, h. split; [left; reflexivity | auto]. }
      destruct ok; cbn [fst]; [| auto].
      destruct (IH page_urls') as (K1 & K2 & K3). cbn zeta in K1, K2, K3.
      split; [auto | split; [auto |]].
      intros u Hu. destruct (K3 u Hu) as [Hin | (sel & l & h & Hsel & Hrest)].
      + apply Hhere, Hin.
      + right. exists sel, l, h. split; [right; exact Hsel | exact Hrest]. }
  destruct (Hgen bulk_selectors []) as (H1 & H2 & H3). cbn zeta in H1, H2, H3.
  split; [apply H1; constructor | split; [apply H2; simpl; lia |]].
  intros u Hu. destruct (H3 u Hu) as [[] | Hfound]. exact Hfound.
Qed.

(** *** The page number in the query *)





(** *** The page number in the path *)


End Facts.

Lemma books_shortcut_agrees_with_handler_witness :
  @get_next_page urllib_model.model samples.catalogue_front
    "https://books.toscrape.com/" ∅
  = Return (Some "https://books.toscrape.com/catalogue/page-2.html",
            {["https://books.toscrape.com/catalogue/page-2.html"]} ∪ ∅).
Proof.
  apply (@books_shortcut_agrees_with_handler urllib_model.model
           samples.catalogue_front "https://books.toscrape.com/"
           "https://books.toscrape.com/catalogue/page-2.html" ∅).
  - reflexivity.
  - set_solver.
Defined.


Example construct_page_parameter_value :
  @_construct_next_page_url urllib_model.model
    "https://shop.example/list?tag=a&page=9&tag=b"
  = Some "https://shop.example/list?tag=a&page=10".
Proof. reflexivity. Qed.


End pagination_bulk_facts.

(** * Further properties of [static_scraper.py] *)

Module static_scraper_more.

Import PyStr urllib static_scraper.

Local Open Scope string_scope.

Section Facts.

Context {lib : UrlLib}.

Variable fetch : nat -> string -> response.
Variable REQUEST_DELAY : Q.

Lemma collect_extends (current_url : string) (max_products : Z) (items : list Pod)
  (products result : list Product) :
  collect current_url max_products items products = Return result ->
  exists more : list Product,
    result = (products ++ more)%list /\
    (List.length more <= List.length items)%nat /\
    (max_products <> 0%Z ->
     (Z.of_nat (List.length products) <= Z.max 0 max_products)%Z ->
     (Z.of_nat (List.length result) <= Z.max 0 max_products)%Z) /\
    (max_products = 0%Z -> List.length more = List.length items).
Proof.
  revert products result.
  induction items as [| item rest IH]; intros products result; cbn [collect].
  - intros H. injection H as <-. exists []. rewrite List.app_nil_r.
    repeat split; auto.
  - destruct (limit_reached max_products products) eqn:Hlimit.
    + intros H. injection H as <-. exists []. rewrite List.app_nil_r.
      split; [reflexivity | split; [simpl; lia | split; [auto |]]].
      intros ->. unfold limit_reached in Hlimit. simpl in Hlimit. discriminate.
    + destruct (make_product current_url item) as [product |]; cbn [bind_exn];
        [| discriminate].
      intros Hrest. destruct (IH _ _ Hrest) as (more & Heq & Hlen & Hcap & Hall).
      exists (product :: more).
      split; [rewrite Heq, <- List.app_assoc; reflexivity |].
      split; [simpl; lia | split].
      * intros Hne Hbound. apply Hcap; [exact Hne |].
        rewrite List.length_app. simpl.
        unfold limit_reached in Hlimit.
        apply andb_false_iff in Hlimit as [Hzero | Hroom].
        -- apply negb_false_iff, Z.eqb_eq in Hzero. contradiction.
        -- apply Z.leb_gt in Hroom. lia.
      * intros Hzero. simpl. rewrite (Hall Hzero). reflexivity.
Qed.

(** What a returning crawl did to the products and the trace it was given. *)
Lemma crawl_extends (fuel n : nat) (max_products : Z) (current_url : option string)
  (products result : list Product) (trace trace' : list event) :
  crawl fetch REQUEST_DELAY fuel n max_products current_url products trace
  = Some (Return result, trace') ->
  (exists more : list Product, result = (products ++ more)%list) /\
  (exists events : list event, trace' = (trace ++ events)%list) /\
  (max_products <> 0%Z ->
   (Z.of_nat (List.length products) <= Z.max 0 max_products)%Z ->
   (Z.of_nat (List.length result) <= Z.max 0 max_products)%Z).
Proof.
  revert n current_url products trace.
  induction fuel as [| fuel IH]; intros n current_url products trace.
  - simpl. destruct current_url as [url |].
    + destruct (truthy url); simpl; [discriminate |].
      intros H. injection H as <- <-.
      split; [exists []; rewrite List.app_nil_r; reflexivity |].
      split; [exists []; rewrite List.app_nil_r; reflexivity | auto].
    + intros H. injection H as <- <-.
      split; [exists []; rewrite List.app_nil_r; reflexivity |].
      split; [exists []; rewrite List.app_nil_r; reflexivity | auto].
  - assert (Hstop : forall (ps : list Product) (tr : list event) (events : list event),
              (exists more, ps = (products ++ more)%list) ->
              (max_products <> 0%Z ->
               (Z.of_nat (List.length products) <= Z.max 0 max_products)%Z ->
               (Z.of_nat (List.length ps) <= Z.max 0 max_products)%Z) ->
              Some (Return ps, (trace ++ events)%list) = Some (Return result, trace') ->
              (exists more, result = (products ++ more)%list) /\
              (exists events, trace' = (trace ++ events)%list) /\
              (max_products <> 0%Z ->
               (Z.of_nat (List.length products) <= Z.max 0 max_products)%Z ->
               (Z.of_nat (List.length result) <= Z.max 0 max_products)%Z)).
    { intros ps tr events Hps Hcap H. injection H as <- <-.
      split; [exact Hps | split; [exists events; reflexivity | exact Hcap]]. }
    assert (Hsame : exists more, products = (products ++ more)%list)
      by (exists []; rewrite List.app_nil_r; reflexivity).
    cbn [crawl]. destruct current_url as [url |].
    2:{ rewrite <- (List.app_nil_r trace) at 1. apply (Hstop _ trace); auto. }
    destruct (truthy url); cbn [negb].
    2:{ rewrite <- (List.app_nil_r trace) at 1. apply (Hstop _ trace); auto. }
    destruct (fetch n url) as [| status_code page];
      [apply (Hstop _ trace); auto |].
    destruct (raise_for_status status_code); [apply (Hstop _ trace); auto |].
    destruct (collect url max_products (product_pods page) products)
      as [collected |] eqn:Hcollect; [| discriminate].
    destruct (collect_extends _ _ _ _ _ Hcollect) as (more & -> & _ & Hcap & _).
    destruct (limit_reached max_products (products ++ more)).
    { apply (Hstop _ trace); [exists more; reflexivity | exact Hcap]. }
    assert (Hloop : forall next : option string,
              crawl fetch REQUEST_DELAY fuel (S n) max_products next (products ++ more)
                ((trace ++ [Get url]) ++ [Sleep REQUEST_DELAY])
              = Some (Return result, trace') ->
              (exists more0, result = (products ++ more0)%list) /\
              (exists events, trace' = (trace ++ events)%list) /\
              (max_products <> 0%Z ->
               (Z.of_nat (List.length products) <= Z.max 0 max_products)%Z ->
               (Z.of_nat (List.length result) <= Z.max 0 max_products)%Z)).
    { intros next Hnext.
      destruct (IH _ _ _ _ Hnext) as ((more' & ->) & (events & ->) & Hcap').
      split; [exists (more ++ more')%list; rewrite List.app_assoc; reflexivity |].
      split; [exists ([Get url] ++ [Sleep REQUEST_DELAY] ++ events)%list;
              rewrite !List.app_assoc; reflexivity |].
      intros Hne Hbound. apply Hcap'; [exact Hne | apply Hcap; assumption]. }
    destruct (next_button page) as [a |]; [| apply Hloop].
    destruct (pagination.get "href" a) as [next_href |]; [| apply Hloop].
    destruct (urljoin url next_href) as [next |]; [apply Hloop | discriminate].
Qed.

(** X12.  The bound on the result.  With [max_products] other than 0, a call
    that returns gives at most [max_products] products (none when it is
    negative), whatever the pages. *)
Theorem scrape_static_respects_max_products (fuel : nat) (url : string)
  (max_products : Z) (result : list Product) (trace : list event) :
  max_products <> 0%Z ->
  scrape_static fetch REQUEST_DELAY fuel url max_products = Some (Return result, trace) ->
  (Z.of_nat (List.length result) <= Z.max 0 max_products)%Z.
Proof.
  unfold scrape_static. intros Hne Hrun.
  destruct (crawl_extends _ _ _ _ _ _ _ _ Hrun) as (_ & _ & Hcap).
  apply Hcap; [exact Hne | simpl; lia].
Qed.

Lemma crawl_trace_extends (fuel n : nat) (max_products : Z)
  (current_url : option string) (products : list Product)
  (outcome : exn (list Product)) (trace trace' : list event) :
  crawl fetch REQUEST_DELAY fuel n max_products current_url products trace
  = Some (outcome, trace') ->
  exists events : list event, trace' = (trace ++ events)%list.
Proof.
  revert n current_url products trace.
  induction fuel as [| fuel IH]; intros n current_url products trace.
  - simpl. destruct current_url as [url |].
    + destruct (truthy url); simpl; [discriminate |].
      intros H. injection H as _ <-. exists []. rewrite List.app_nil_r. reflexivity.
    + intros H. injection H as _ <-. exists []. rewrite List.app_nil_r. reflexivity.
  - assert (Hstop : forall (o : exn (list Product)) (events : list event),
              Some (o, (trace ++ events)%list) = Some (outcome, trace') ->
              exists events0 : list event, trace' = (trace ++ events0)%list).
    { intros o events H. injection H as _ <-. exists events. reflexivity. }
    cbn [crawl]. destruct current_url as [url |].
    2:{ rewrite <- (List.app_nil_r trace) at 1. apply Hstop. }
    destruct (truthy url); cbn [negb].
    2:{ rewrite <- (List.app_nil_r trace) at 1. apply Hstop. }
    destruct (fetch n url) as [| status_code page]; [apply Hstop |].
    destruct (raise_for_status status_code); [apply Hstop |].
    destruct (collect url max_products (product_pods page) products)
      as [collected |]; [| apply Hstop].
    destruct (limit_reached max_products collected); [apply Hstop |].
    assert (Hloop : forall next : option string,
              crawl fetch REQUEST_DELAY fuel (S n) max_products next collected
                ((trace ++ [Get url]) ++ [Sleep REQUEST_DELAY])
              = Some (outcome, trace') ->
              exists events : list event, trace' = (trace ++ events)%list).
    { intros next Hnext. destruct (IH _ _ _ _ Hnext) as (events & ->).
      exists ([Get url] ++ [Sleep REQUEST_DELAY] ++ events)%list.
      rewrite !List.app_assoc. reflexivity. }
    destruct (next_button page) as [a |]; [| apply Hloop].
    destruct (pagination.get "href" a) as [next_href |]; [| apply Hloop].
    destruct (urljoin url next_href) as [next |]; [apply Hloop | apply Hstop].
Qed.

(** X13.  What the loop keeps.  However the loop ends, by returning or
    by an exception, the requests and pauses made before are still the
    beginning of its trace.  When it ends by returning, the products
    returned begin with the ones collected before; an exception gives the
    caller no product at all. *)
Theorem crawl_keeps_what_it_has (fuel n : nat) (max_products : Z)
  (current_url : option string) (products : list Product)
  (outcome : exn (list Product)) (trace trace' : list event) :
  crawl fetch REQUEST_DELAY fuel n max_products current_url products trace
  = Some (outcome, trace') ->
  (exists events : list event, trace' = (trace ++ events)%list) /\
  match outcome with
  | Return result => exists more : list Product, result = (products ++ more)%list
  | Raise => True
  end.
Proof.
  intros Hrun. split; [exact (crawl_trace_extends _ _ _ _ _ _ _ _ Hrun) |].
  destruct outcome as [result |]; [| exact I].
  destruct (crawl_extends _ _ _ _ _ _ _ _ Hrun) as (H1 & _ & _). exact H1.
Qed.

(** X14.  No limit at 0.  With [max_products=0] the loop over the pods of a page
    never stops early: when it returns, every pod of the page has given a
    product. *)
Theorem collect_without_limit (current_url : string) (items : list Pod)
  (products result : list Product) :
  collect current_url 0 items products = Return result ->
  exists more : list Product,
    result = (products ++ more)%list /\ List.length more = List.length items.
Proof.
  intros Hrun. destruct (collect_extends _ _ _ _ _ Hrun) as (more & -> & _ & _ & Hall).
  exists more. split; [reflexivity | apply Hall; reflexivity].
Qed.

(** X15.  A link without target.  When the page at [url] has no product and its
    [li.next > a] has no [href], the next URL is [url] again: the loop
    requests the same page for ever, and no amount of fuel lets it
    return. *)
Theorem next_link_without_href_never_ends (fuel n : nat) (max_products : Z)
  (url : string) (status_code : Z) (page : Page) (a : list (string * string))
  (products : list Product) (trace : list event) :
  truthy url = true ->
  (forall k : nat, fetch k url = Response status_code page) ->
  raise_for_status status_code = false ->
  product_pods page = [] ->
  next_button page = Some a ->
  pagination.get "href" a = None ->
  limit_reached max_products products = false ->
  crawl fetch REQUEST_DELAY fuel n max_products (Some url) products trace = None.
Proof.
  intros Hurl Hfetch Hstatus Hpods Hnext Hhref Hlimit.
  revert n trace. induction fuel as [| fuel IH]; intros n trace.
  - simpl. rewrite Hurl. reflexivity.
  - cbn [crawl]. rewrite Hurl. cbn [negb].
    rewrite Hfetch, Hstatus, Hpods. cbn [collect].
    rewrite Hlimit, Hnext, Hhref. apply IH.
Qed.

End Facts.

Lemma scrape_static_respects_max_products_witness :
  exists (result : list Product) (trace : list event),
    @scrape_static urllib_model.model samples.three_pages 1.5 6
      "https://books.toscrape.com/" 4
    = Some (Return result, trace) /\
    (Z.of_nat (List.length result) <= Z.max 0 4)%Z.
Proof.
  eexists _, _. split.
  - reflexivity.
  - eapply (@scrape_static_respects_max_products urllib_model.model
              samples.three_pages 1.5 6 "https://books.toscrape.com/" 4).
    + discriminate.
    + reflexivity.
Defined.

Lemma crawl_keeps_what_it_has_witness :
  (exists events : list event,
      [ Get "https://books.toscrape.com/"; Sleep 1.5;
        Get "https://books.toscrape.com/page-2.html" ]
      = ([ Get "https://books.toscrape.com/"; Sleep 1.5 ] ++ events)%list) /\
  match
    Return [ {| name := "Book 1a"; price := "10.00";
                link := "https://books.toscrape.com/book-1a.html" |} ]
  with
  | Return result =>
      exists more : list Product,
        result
        = ([ {| name := "Book 1a"; price := "10.00";
                link := "https://books.toscrape.com/book-1a.html" |} ] ++ more)%list
  | Raise => True
  end.
Proof.
  apply (@crawl_keeps_what_it_has urllib_model.model samples.second_page_down 1.5
           3 1 5 (Some "https://books.toscrape.com/page-2.html")).
  reflexivity.
Defined.

Lemma collect_without_limit_witness :
  exists more : list Product,
    [ {| name := "Book 1a"; price := "10.00";
         link := "https://books.toscrape.com/book-1a.html" |};
      {| name := "Book 1b"; price := "11.00";
         link := "https://books.toscrape.com/book-1b.html" |};
      {| name := "Book 1c"; price := "12.00";
         link := "https://books.toscrape.com/book-1c.html" |} ]
    = ([] ++ more)%list /\
    List.length more
    = List.length (product_pods (samples.listing "1" (Some "page-2.html"))).
Proof.
  apply (@collect_without_limit urllib_model.model "https://books.toscrape.com/"
           (product_pods (samples.listing "1" (Some "page-2.html"))) []).
  reflexivity.
Defined.

Lemma next_link_without_href_never_ends_witness :
  @crawl urllib_model.model samples.always_dangling 1.5 25 0 5
    (Some "https://books.toscrape.com/") [] []
  = None.
Proof.
  apply (@next_link_without_href_never_ends urllib_model.model
           samples.always_dangling 1.5 25 0 5 "https://books.toscrape.com/"
           200 samples.dangling_next [("class", "next")] [] []).
  - reflexivity.
  - intros k. reflexivity.
  - reflexivity.
  - reflexivity.
  - reflexivity.
  - reflexivity.
  - reflexivity.
Defined.

End static_scraper_more.

(** * Properties of [dynamic_scraper.py] *)

Module dynamic_scraper_facts.

Import PyStr dynamic_scraper.

Local Open Scope string_scope.

Section Facts.

Variable repr : json -> string.

Lemma build_objects (dicts : list (list (string * json))) (items : list json)
  (products : list Product) :
  build repr (List.map JObject dicts ++ items) products
  = build repr items (products ++ List.map (make_product repr) dicts).
Proof.
  revert products. induction dicts as [| d dicts IH]; intros products; simpl.
  - rewrite List.app_nil_r. reflexivity.
  - rewrite IH, <- List.app_assoc. reflexivity.
Qed.

Lemma build_length (items : list json) (products : list Product) :
  (List.length (build repr items products)
   <= List.length products + List.length items)%nat.
Proof.
  revert products. induction items as [| item rest IH]; intros products; simpl.
  - lia.
  - destruct item; simpl; try lia.
    specialize (IH (products ++ [make_product repr members])%list).
    rewrite List.length_app in IH. simpl in IH. lia.
Qed.

Lemma slice_to_length {A : Type} (l : list A) (stop : Z) :
  (0 <= stop)%Z -> (Z.of_nat (List.length (slice_to l stop)) <= stop)%Z.
Proof.
  intros Hstop. unfold slice_to.
  replace (stop <? 0)%Z with false by (symmetry; apply Z.ltb_ge; exact Hstop).
  rewrite List.length_firstn. lia.
Qed.

Lemma slice_to_map {A B : Type} (f : A -> B) (l : list A) (stop : Z) :
  slice_to (List.map f l) stop = List.map f (slice_to l stop).
Proof.
  unfold slice_to. rewrite List.length_map.
  destruct (stop <? 0)%Z; apply List.firstn_map.
Qed.

(** X16.  The bound on the result.  With [max_products] zero or positive,
    [scrape_dynamic] returns at most [max_products] products, whatever the
    page gave or raised; with 0 it returns none. *)
Theorem scrape_dynamic_respects_max_products (loaded : exn json) (max_products : Z) :
  (0 <= max_products)%Z ->
  (Z.of_nat (List.length (scrape_dynamic repr loaded max_products)) <= max_products)%Z.
Proof.
  intros Hmax. unfold scrape_dynamic, extract.
  destruct loaded as [data |]; [| simpl; lia].
  match goal with
  | |- context [match ?m with Return _ => _ | Raise => _ end] => destruct m as [found |]
  end; [| simpl; lia].
  destruct found; try (simpl; lia).
  pose proof (build_length (slice_to items max_products) []) as Hbuild.
  pose proof (slice_to_length items max_products Hmax) as Hslice.
  simpl in Hbuild. lia.
Qed.

Lemma extract_product_list (data : json) (items : list json) (max_products : Z) :
  holds_product_list data (JArray items) ->
  extract repr data max_products = build repr (slice_to items max_products) [].
Proof.
  intros (props & page_props & members & -> & Hprops & Hpage & Hlist).
  unfold extract, dict_get. rewrite Hprops. cbn [bind_exn].
  rewrite Hpage. cbn [bind_exn]. rewrite Hlist. reflexivity.
Qed.

(** X17.  The slice.  When [product_list] is a list of objects, the result has
    one product for each element of [product_list[:max_products]], in
    order: the first [max_products] of them, or, with a negative
    [max_products], all but the last [-max_products]. *)
Theorem scrape_dynamic_takes_the_slice (data : json)
  (dicts : list (list (string * json))) (max_products : Z) :
  holds_product_list data (JArray (List.map JObject dicts)) ->
  scrape_dynamic repr (Return data) max_products
  = List.map (make_product repr) (slice_to dicts max_products).
Proof.
  intros Hdata. unfold scrape_dynamic.
  rewrite (extract_product_list _ _ _ Hdata), slice_to_map.
  rewrite <- (List.app_nil_r (List.map JObject (slice_to dicts max_products))).
  rewrite build_objects. reflexivity.
Qed.

(** X18.  An element that is not an object.  When [product_list] is a list whose
    first elements are objects and the next one is not, and that element is
    within the slice, the result is the products of the objects before it:
    the objects after it are lost. *)
Theorem scrape_dynamic_stops_at_non_object (data : json)
  (dicts : list (list (string * json))) (bad : json) (rest : list json)
  (max_products : Z) :
  holds_product_list data (JArray (List.map JObject dicts ++ bad :: rest)) ->
  is_dict bad = false ->
  (Z.of_nat (List.length dicts) < max_products)%Z ->
  scrape_dynamic repr (Return data) max_products
  = List.map (make_product repr) dicts.
Proof.
  intros Hdata Hbad Hmax. unfold scrape_dynamic.
  rewrite (extract_product_list _ _ _ Hdata).
  unfold slice_to.
  replace (max_products <? 0)%Z with false by (symmetry; apply Z.ltb_ge; lia).
  rewrite List.firstn_app, List.length_map.
  rewrite List.firstn_all2 by (rewrite List.length_map; lia).
  replace (Z.to_nat max_products - List.length dicts)%nat
    with (S (Z.to_nat max_products - List.length dicts - 1)) by lia.
  cbn [List.firstn]. rewrite build_objects.
  destruct bad; try reflexivity. discriminate.
Qed.

End Facts.

Lemma next_data_holds (product_list : json) :
  holds_product_list (next_data product_list) product_list.
Proof.
  unfold next_data. eexists _, _, _. repeat split.
Qed.

Lemma scrape_dynamic_respects_max_products_witness :
  (Z.of_nat (List.length
               (scrape_dynamic (fun _ => "")
                  (Return (next_data (JArray [ JObject (bike "city" 1999);
                                               JObject (bike "cargo" 2999);
                                               JObject (bike "trail" 2499) ])))
                  2))
   <= 2)%Z.
Proof.
  apply (scrape_dynamic_respects_max_products (fun _ => "")).
  lia.
Defined.

Lemma scrape_dynamic_takes_the_slice_witness :
  scrape_dynamic (fun _ => "")
    (Return (next_data (JArray (List.map JObject
                                  [bike "city" 1999; bike "cargo" 2999;
                                   bike "trail" 2499]))))
    (-1)
  = List.map (make_product (fun _ => ""))
      (slice_to [bike "city" 1999; bike "cargo" 2999; bike "trail" 2499] (-1)).
Proof.
  apply (scrape_dynamic_takes_the_slice (fun _ => "")).
  unfold holds_product_list, next_data. eexists _, _, _. repeat split.
Defined.

Lemma scrape_dynamic_stops_at_non_object_witness :
  scrape_dynamic (fun _ => "")
    (Return (next_data (JArray (List.map JObject [bike "city" 1999]
                                ++ JNull :: [JObject (bike "trail" 2499)]))))
    5
  = List.map (make_product (fun _ => "")) [bike "city" 1999].
Proof.
  apply (scrape_dynamic_stops_at_non_object (fun _ => "") _ [bike "city" 1999] JNull
           [JObject (bike "trail" 2499)] 5).
  - unfold holds_product_list, next_data. eexists _, _, _. repeat split.
  - reflexivity.
  - simpl. lia.
Defined.

End dynamic_scraper_facts.
